(** * Emotion sampling loop: face-api.js detector and its polling hook

    A shallow embedding of
      - [FaceApiEmotionDetector] (utils/faceApi/emotionDetection), and
      - [useFaceApiEmotionDetection] (hooks/useFaceApiEmotionDetection),
    followed by the properties of the sampling loop that the specification
    states about them. *)

From Stdlib Require Import QArith Qround ZArith List String Bool Lia Lqa.
Import ListNotations.

Local Open Scope string_scope.
Local Open Scope list_scope.

(** ** JavaScript numbers

    Scores, ages and clock readings are JavaScript numbers.  The code only
    copies and compares them, tests them for truthiness ([x || 0]) and rounds
    one of them ([Math.round]); none of this rounds a floating-point result,
    so a finite number is represented by the rational it denotes.  [NaN] and
    the two infinities are kept, because [x || 0] and [>] treat them
    specially.  (Negative zero is identified with zero: it is falsy and
    compares equal to zero.) *)
Module JsNumber.

Inductive number : Type :=
| NaN
| NegInfinity
| Finite (q : Q)
| Infinity.

(** [a < b] on numbers: any comparison with [NaN] is false. *)
Definition lt (a b : number) : bool :=
  match a, b with
  | NaN, _ | _, NaN => false
  | _, NegInfinity => false
  | NegInfinity, _ => true
  | Infinity, _ => false
  | Finite _, Infinity => true
  | Finite x, Finite y => negb (Qle_bool y x)
  end.

(** [a > b]. *)
Definition gt (a b : number) : bool := lt b a.

(** [a <= b]. *)
Definition le (a b : number) : bool :=
  match a, b with
  | NaN, _ | _, NaN => false
  | NegInfinity, _ => true
  | _, Infinity => true
  | _, NegInfinity => false
  | Infinity, _ => false
  | Finite x, Finite y => Qle_bool x y
  end.

(** ToBoolean on a number: [0] and [NaN] are falsy. *)
Definition truthy (a : number) : bool :=
  match a with
  | NaN => false
  | Finite q => negb (Qeq_bool q 0)
  | NegInfinity | Infinity => true
  end.

(** [x || d] where [x] is a possibly [undefined] number. *)
Definition or_default (x : option number) (d : number) : number :=
  match x with
  | Some a => if truthy a then a else d
  | None => d
  end.

(** [Math.round]: the nearest integer, halves rounded towards plus
    infinity; [NaN] and the infinities are returned unchanged. *)
Definition Math_round (a : number) : number :=
  match a with
  | Finite q => Finite (inject_Z (Qfloor (q + (1 # 2))))
  | other => other
  end.

Definition is_NaN (a : number) : bool :=
  match a with NaN => true | _ => false end.

End JsNumber.
Import JsNumber.

(** ** Completions and the console

    A JavaScript computation either completes normally with a value or
    throws.  The functions below also write to the console, so a computation
    is a console log together with a completion. *)
Inductive completion (A : Type) : Type :=
| Normal (a : A)
| Throw (error : string).
Arguments Normal {A} a.
Arguments Throw {A} error.

Inductive console : Type :=
| console_log (msg : string)
| console_warn (msg : string)
| console_error (msg : string).

Definition Js (A : Type) : Type := (list console * completion A)%type.

Definition ret {A} (a : A) : Js A := ([], Normal a).

Definition bind {A B} (m : Js A) (k : A -> Js B) : Js B :=
  match m with
  | (out, Normal a) => let (out', r) := k a in (out ++ out', r)
  | (out, Throw e) => (out, Throw e)
  end.

Definition throw {A} (e : string) : Js A := ([], Throw e).

Definition say (c : console) : Js unit := ([c], Normal tt).

(** [try { body } catch (error) { handler }]. *)
Definition try_catch {A} (body : Js A) (handler : string -> Js A) : Js A :=
  match body with
  | (out, Throw e) => let (out', r) := handler e in (out ++ out', r)
  | done => done
  end.

(** [await p] / a call into an external library: its completion is given. *)
Definition await {A} (p : completion A) : Js A := ([], p).

Notation "x <- m ;; k" := (bind m (fun x => k))
  (at level 61, m at next level, right associativity).
Notation "m ;;; k" := (bind m (fun _ => k))
  (at level 61, right associativity).

(** [Array.prototype.reduce] without an initial value: the first element
    seeds the accumulator; on an empty array it throws a TypeError. *)
Definition Array_reduce {A} (f : A -> A -> A) (l : list A) : Js A :=
  match l with
  | [] => throw "TypeError: Reduce of empty array with no initial value"
  | x :: rest => ret (fold_left f rest x)
  end.

(** ** The external library face-api.js, as far as the detector reads it *)
Module faceapi.

(** [detection.expressions]: a field may be missing or not a number. *)
Record FaceExpressions : Type := {
  neutral : option number;
  happy : option number;
  sad : option number;
  angry : option number;
  fearful : option number;
  disgusted : option number;
  surprised : option number
}.

(** One element of the array resolved by
    [detectAllFaces(..).withFaceLandmarks().withFaceExpressions()
     .withAgeAndGender()]. *)
Record Detection : Type := {
  expressions : FaceExpressions;
  age : option number;
  gender : option string
}.

End faceapi.

(** ** utils/faceApi/emotionDetection *)
Module EmotionDetection.

Record FaceApiEmotionResult : Type := {
  neutral : number;
  happy : number;
  sad : number;
  angry : number;
  fearful : number;
  disgusted : number;
  surprised : number
}.

Record FaceApiDetectionResult : Type := {
  emotions : FaceApiEmotionResult;
  dominant : string;
  confidence : number;
  age : option number;
  gender : option string;
  faceDetected : bool
}.

(** The two private fields of the class. *)
Record FaceApiEmotionDetector : Type := {
  isInitialized : bool;
  modelsLoaded : bool
}.

(** [new FaceApiEmotionDetector()]. *)
Definition new : FaceApiEmotionDetector :=
  {| isInitialized := false; modelsLoaded := false |}.

(** [Object.entries(emotions)]: string keys in insertion order, which is
    the order of the object literal that builds [emotions]. *)
Definition Object_entries (e : FaceApiEmotionResult)
  : list (string * number) :=
  [ ("neutral", neutral e); ("happy", happy e); ("sad", sad e);
    ("angry", angry e); ("fearful", fearful e);
    ("disgusted", disgusted e); ("surprised", surprised e) ].

(** The reducer [(max, current) => current[1] > max[1] ? current : max]. *)
Definition pick (max current : string * number) : string * number :=
  if gt (snd current) (snd max) then current else max.

(** [gender || 'unknown'] on a possibly undefined string: the empty
    string is falsy. *)
Definition gender_or_unknown (g : option string) : string :=
  match g with
  | Some "" | None => "unknown"
  | Some s => s
  end.

(** The result returned when [detections.length === 0]. *)
Definition noFaceResult : FaceApiDetectionResult :=
  {| emotions := {| neutral := Finite 1; happy := Finite 0;
                    sad := Finite 0; angry := Finite 0;
                    fearful := Finite 0; disgusted := Finite 0;
                    surprised := Finite 0 |};
     dominant := "neutral";
     confidence := Finite 0;
     age := None;
     gender := None;
     faceDetected := false |}.

(** "Convert face-api expressions to our format". *)
Definition convert (x : faceapi.FaceExpressions) : FaceApiEmotionResult :=
  {| neutral := or_default (faceapi.neutral x) (Finite 0);
     happy := or_default (faceapi.happy x) (Finite 0);
     sad := or_default (faceapi.sad x) (Finite 0);
     angry := or_default (faceapi.angry x) (Finite 0);
     fearful := or_default (faceapi.fearful x) (Finite 0);
     disgusted := or_default (faceapi.disgusted x) (Finite 0);
     surprised := or_default (faceapi.surprised x) (Finite 0) |}.

(** [detectEmotions(video)].  The frame is opaque to this code: all that
    is observed of it is the completion [capability] of the awaited
    face-api.js call on it. *)
Definition detectEmotions (this : FaceApiEmotionDetector)
    (capability : completion (list faceapi.Detection))
  : Js (option FaceApiDetectionResult) :=
  if negb (isInitialized this) || negb (modelsLoaded this) then
    say (console_warn "face-api.js not initialized") ;;;
    ret None
  else
    try_catch
      (detections <- await capability ;;
       match detections with
       | [] =>
           say (console_log "No face detected by face-api.js") ;;;
           ret (Some noFaceResult)
       | detection :: _ =>
           let emotions := convert (faceapi.expressions detection) in
           let emotionEntries := Object_entries emotions in
           best <- Array_reduce pick emotionEntries ;;
           let '(dominantEmotion, confidence) := best in
           say (console_log "face-api.js emotion detected:") ;;;
           ret (Some
             {| emotions := emotions;
                dominant := dominantEmotion;
                confidence := confidence;
                age := Some (Math_round
                         (or_default (faceapi.age detection) (Finite 0)));
                gender := Some (gender_or_unknown (faceapi.gender detection));
                faceDetected := true |})
       end)
      (fun error =>
         say (console_error "Error in face-api.js emotion detection:") ;;;
         ret None).

(** [dispose()]. *)
Definition dispose (this : FaceApiEmotionDetector) : FaceApiEmotionDetector :=
  {| isInitialized := false; modelsLoaded := false |}.

End EmotionDetection.

(** ** Model loading: [initialize()] across its [await]

    [initialize()] suspends at [await Promise.all([...loadFromUri...])], so
    other calls can run between its two halves.  [Loader] is the book-keeping
    of the network and of the event loop: how many batches of model loads
    have been started, and how many [initialize()] calls are suspended on
    one. *)
Module Loading.
Import EmotionDetection.

Record Loader : Type := {
  started : nat;
  suspended : nat
}.

Definition idle : Loader := {| started := 0; suspended := 0 |}.

(** [initialize()] up to its [await]: returns at once when
    [isInitialized], otherwise starts the model loads and suspends. *)
Definition initialize_call (s : FaceApiEmotionDetector * Loader)
  : list console * (FaceApiEmotionDetector * Loader) :=
  let (this, net) := s in
  if isInitialized this then ([], s)
  else
    ([console_log "Initializing face-api.js..."],
     (this, {| started := S (started net);
               suspended := S (suspended net) |})).

(** [initialize()] from its [await] on, once the loads have settled with
    [outcome]; the completion is that of the promise [initialize()]
    returned. *)
Definition initialize_resume (outcome : completion unit)
    (s : FaceApiEmotionDetector * Loader)
  : Js unit * (FaceApiEmotionDetector * Loader) :=
  let (this, net) := s in
  match suspended net with
  | O => (ret tt, s)
  | S waiting =>
      let net' := {| started := started net; suspended := waiting |} in
      match outcome with
      | Normal _ =>
          (say (console_log "face-api.js models loaded successfully"),
           ({| isInitialized := true; modelsLoaded := true |}, net'))
      | Throw error =>
          (say (console_error "Failed to load face-api.js models:") ;;;
           throw error,
           (this, net'))
      end
  end.

Inductive event : Type :=
| call
| settle (outcome : completion unit).

Definition step (e : event) (s : FaceApiEmotionDetector * Loader)
  : FaceApiEmotionDetector * Loader :=
  match e with
  | call => snd (initialize_call s)
  | settle outcome => snd (initialize_resume outcome s)
  end.

Definition run (es : list event) (s : FaceApiEmotionDetector * Loader)
  : FaceApiEmotionDetector * Loader :=
  fold_left (fun s e => step e s) es s.

End Loading.

(** ** utils/mediapipe/emotionDetection *)
Module Mediapipe.

(** Modelled from the spec: the [EmotionState] type is declared in
    utils/mediapipe/emotionDetection, which is not part of the sources at
    hand.  Its fields are those of the two object literals of the hook
    that are typed [EmotionState] and of the specification's data model:
    [dominant] is a string, [timestamp] is optional. *)
Record EmotionScores : Type := {
  neutral : number;
  happy : number;
  sad : number;
  angry : number;
  surprised : number;
  fearful : number;
  disgust : number
}.

(** Modelled from the spec: [EmotionState], declared in the same missing
    module; the fields are those the hook writes and the specification's
    data model lists. *)
Record EmotionState : Type := {
  dominant : string;
  confidence : number;
  scores : EmotionScores;
  icon : string;
  timestamp : option Z
}.

(** The keys of an [EmotionScores] object. *)
Definition EmotionCategory : list string :=
  [ "neutral"; "happy"; "sad"; "angry"; "surprised"; "fearful"; "disgust" ].

(** Property access [scores[key]]; [None] is [undefined]. *)
Definition get (s : EmotionScores) (key : string) : option number :=
  if String.eqb key "neutral" then Some (neutral s)
  else if String.eqb key "happy" then Some (happy s)
  else if String.eqb key "sad" then Some (sad s)
  else if String.eqb key "angry" then Some (angry s)
  else if String.eqb key "surprised" then Some (surprised s)
  else if String.eqb key "fearful" then Some (fearful s)
  else if String.eqb key "disgust" then Some (disgust s)
  else None.

(** [Object.entries(scores)]. *)
Definition entries (s : EmotionScores) : list (string * number) :=
  [ ("neutral", neutral s); ("happy", happy s); ("sad", sad s);
    ("angry", angry s); ("surprised", surprised s);
    ("fearful", fearful s); ("disgust", disgust s) ].

End Mediapipe.

(** ** hooks/useFaceApiEmotionDetection *)
Module Hook.
Import Mediapipe.
Module D := EmotionDetection.

Record AdditionalData : Type := {
  age : option number;
  gender : option string;
  faceDetected : bool
}.

(** What [processFrame] reads of the video element. *)
Record HTMLVideoElement : Type := {
  readyState : nat;
  videoWidth : nat;
  videoHeight : nat
}.

(** The state the hook keeps between calls: three [useState] cells and
    three refs. *)
Record State : Type := {
  emotionState : EmotionState;
  additionalData : AdditionalData;
  isInitialized : bool;
  detectorRef : option D.FaceApiEmotionDetector;
  animationFrameRef : option nat;
  lastProcessTimeRef : Q
}.

(** The initial values of the cells and refs. *)
Definition initialEmotionState : EmotionState :=
  {| dominant := "neutral";
     confidence := Finite 0;
     scores := {| neutral := Finite 1; happy := Finite 0; sad := Finite 0;
                  angry := Finite 0; surprised := Finite 0;
                  fearful := Finite 0; disgust := Finite 0 |};
     icon := "😐";
     timestamp := None |}.

Definition mount : State :=
  {| emotionState := initialEmotionState;
     additionalData := {| age := None; gender := None;
                          faceDetected := false |};
     isInitialized := false;
     detectorRef := None;
     animationFrameRef := None;
     lastProcessTimeRef := 0 |}.

(** What one call of [processFrame] finds around it: the [isActive]
    argument of the hook, [videoRef.current], the two clocks, the handle
    [requestAnimationFrame] would return, and the completion of the
    face-api.js call on the current frame. *)
Record Tick : Type := {
  isActive : bool;
  video : option HTMLVideoElement;
  performance_now : Q;
  Date_now : Z;
  handle : nat;
  capability : completion (list faceapi.Detection)
}.

(** What a call of [processFrame] does to the outside: console output,
    the call of [detectEmotions], the two state setters with the value
    they publish, and the request for the next animation frame. *)
Inductive effect : Type :=
| Console (c : console)
| DetectEmotions
| SetEmotionState (e : EmotionState)
| SetAdditionalData (a : AdditionalData)
| RequestAnimationFrame (h : nat).

Definition iconMap : list (string * string) :=
  [ ("happy", "😊"); ("sad", "😢"); ("angry", "😡"); ("surprised", "😲");
    ("fearful", "😨"); ("disgusted", "🤢"); ("neutral", "😐") ].

Fixpoint lookup (m : list (string * string)) (key : string)
  : option string :=
  match m with
  | [] => None
  | (k, v) :: rest => if String.eqb key k then Some v else lookup rest key
  end.

(** [iconMap[emotion] || '😐'] (every icon of the table is a non-empty,
    hence truthy, string). *)
Definition getEmotionIcon (emotion : string) : string :=
  match lookup iconMap emotion with
  | Some i => i
  | None => "😐"
  end.

(** "Convert face-api results to our EmotionState format". *)
Definition newEmotionState (result : D.FaceApiDetectionResult) (now : Z)
  : EmotionState :=
  {| dominant := D.dominant result;
     confidence := D.confidence result;
     scores := {| neutral := D.neutral (D.emotions result);
                  happy := D.happy (D.emotions result);
                  sad := D.sad (D.emotions result);
                  angry := D.angry (D.emotions result);
                  surprised := D.surprised (D.emotions result);
                  fearful := D.fearful (D.emotions result);
                  disgust := D.disgusted (D.emotions result) |};
     icon := getEmotionIcon (D.dominant result);
     timestamp := Some now |}.

Definition newAdditionalData (result : D.FaceApiDetectionResult)
  : AdditionalData :=
  {| age := D.age result;
     gender := D.gender result;
     faceDetected := D.faceDetected result |}.

Definition setEmotionState (e : EmotionState) (s : State) : State :=
  {| emotionState := e;
     additionalData := additionalData s;
     isInitialized := isInitialized s;
     detectorRef := detectorRef s;
     animationFrameRef := animationFrameRef s;
     lastProcessTimeRef := lastProcessTimeRef s |}.

Definition setAdditionalData (a : AdditionalData) (s : State) : State :=
  {| emotionState := emotionState s;
     additionalData := a;
     isInitialized := isInitialized s;
     detectorRef := detectorRef s;
     animationFrameRef := animationFrameRef s;
     lastProcessTimeRef := lastProcessTimeRef s |}.

Definition setIsInitialized (b : bool) (s : State) : State :=
  {| emotionState := emotionState s;
     additionalData := additionalData s;
     isInitialized := b;
     detectorRef := detectorRef s;
     animationFrameRef := animationFrameRef s;
     lastProcessTimeRef := lastProcessTimeRef s |}.

Definition setDetectorRef (d : option D.FaceApiEmotionDetector) (s : State)
  : State :=
  {| emotionState := emotionState s;
     additionalData := additionalData s;
     isInitialized := isInitialized s;
     detectorRef := d;
     animationFrameRef := animationFrameRef s;
     lastProcessTimeRef := lastProcessTimeRef s |}.

Definition setAnimationFrameRef (h : nat) (s : State) : State :=
  {| emotionState := emotionState s;
     additionalData := additionalData s;
     isInitialized := isInitialized s;
     detectorRef := detectorRef s;
     animationFrameRef := Some h;
     lastProcessTimeRef := lastProcessTimeRef s |}.

Definition setLastProcessTimeRef (t : Q) (s : State) : State :=
  {| emotionState := emotionState s;
     additionalData := additionalData s;
     isInitialized := isInitialized s;
     detectorRef := detectorRef s;
     animationFrameRef := animationFrameRef s;
     lastProcessTimeRef := t |}.

(** [x < y] on clock readings. *)
Definition Qltb (x y : Q) : bool := negb (Qle_bool y x).

(** [if (isActive) animationFrameRef.current =
      requestAnimationFrame(processFrame)]. *)
Definition reschedule (t : Tick) (s : State) : State * list effect :=
  if isActive t
  then (setAnimationFrameRef (handle t) s, [RequestAnimationFrame (handle t)])
  else (s, []).

(** One call of [processFrame].  The call is taken as one step: between
    its [await] and its end it reads no cell or ref, and what it writes
    there ([setEmotionState], [setAdditionalData], the next animation
    frame) replaces the previous value whole. *)
Definition processFrame (t : Tick) (s : State) : State * list effect :=
  match video t, detectorRef s with
  | Some video, Some detector =>
      if negb (isActive t) || negb (isInitialized s) then (s, [])
      else if negb (readyState video =? 4)%nat
              || (videoWidth video =? 0)%nat
              || (videoHeight video =? 0)%nat
      then (s, [])
      else
        let now := performance_now t in
        if Qltb (now - lastProcessTimeRef s) 333 then reschedule t s
        else
          let s1 := setLastProcessTimeRef now s in
          let (out, result) := D.detectEmotions detector (capability t) in
          let called := DetectEmotions :: map Console out in
          let (s2, logged) :=
            match result with
            | Normal (Some result) =>
                let e := newEmotionState result (Date_now t) in
                let a := newAdditionalData result in
                (setAdditionalData a (setEmotionState e s1),
                 [SetEmotionState e; SetAdditionalData a;
                  Console (console_log "face-api.js processed:")])
            | Normal None => (s1, [])
            | Throw _ =>
                (s1, [Console
                        (console_error
                           "Error processing face-api.js frame:")])
            end in
          let (s3, next) := reschedule t s2 in
          (s3, called ++ logged ++ next)
  | _, _ => (s, [])
  end.

(** The four-field bundle the presentation layer reads:
    [{...emotionState, additionalData, isInitialized, isProcessing}]. *)
Definition published (active : bool) (s : State)
  : EmotionState * AdditionalData * bool * bool :=
  (emotionState s, additionalData s, isInitialized s,
   active && isInitialized s).

(** A run of calls of [processFrame], each on the state left by the
    previous one; the effects are collected in order. *)
Fixpoint ticks (ts : list Tick) (s : State) : State * list effect :=
  match ts with
  | [] => (s, [])
  | t :: rest =>
      let (s1, done) := processFrame t s in
      let (s2, more) := ticks rest s1 in
      (s2, done ++ more)
  end.

Definition is_detection (e : effect) : bool :=
  match e with DetectEmotions => true | _ => false end.

(** The number of [detectEmotions] invocations in a trace. *)
Definition detections (tr : list effect) : nat :=
  List.length (filter is_detection tr).

(** ** [initializeDetector] across its [await] *)

(** [initializeDetector()] up to its [await]: a detector is created, and
    its [initialize()] called, only when the ref holds none. *)
Definition initializeDetector_call (w : State * Loading.Loader)
  : State * Loading.Loader :=
  let (s, net) := w in
  match detectorRef s with
  | Some _ => w
  | None =>
      let (_, started) := Loading.initialize_call (D.new, net) in
      (setDetectorRef (Some (fst started)) s, snd started)
  end.

(** [initializeDetector()] from its [await] on: the awaited
    [initialize()] resumes with the outcome of the loads, and
    [isInitialized] is set to whether it succeeded. *)
Definition initializeDetector_resume (outcome : completion unit)
    (w : State * Loading.Loader) : State * Loading.Loader :=
  let (s, net) := w in
  match detectorRef s, Loading.suspended net with
  | Some detector, S _ =>
      let (promise, resumed) :=
        Loading.initialize_resume outcome (detector, net) in
      let s1 := setDetectorRef (Some (fst resumed)) s in
      match snd promise with
      | Normal _ => (setIsInitialized true s1, snd resumed)
      | Throw _ => (setIsInitialized false s1, snd resumed)
      end
  | _, _ => w
  end.

Definition init_step (e : Loading.event) (w : State * Loading.Loader)
  : State * Loading.Loader :=
  match e with
  | Loading.call => initializeDetector_call w
  | Loading.settle outcome => initializeDetector_resume outcome w
  end.

Definition init_run (es : list Loading.event) (w : State * Loading.Loader)
  : State * Loading.Loader :=
  fold_left (fun w e => init_step e w) es w.

End Hook.

(** ** Vocabulary of the statements *)

(** The labels face-api.js uses, in the order [detectEmotions] scans them. *)
Definition rawLabels : list string :=
  [ "neutral"; "happy"; "sad"; "angry"; "fearful"; "disgusted"; "surprised" ].

(** A number that is a non-negative integer. *)
Definition nonneg_integer (a : number) : Prop :=
  exists n : Z, (0 <= n)%Z /\ a = Finite (inject_Z n).

(** A detector whose models are loaded. *)
Definition ready (d : EmotionDetection.FaceApiEmotionDetector) : bool :=
  EmotionDetection.isInitialized d && EmotionDetection.modelsLoaded d.

Definition readyDetector : EmotionDetection.FaceApiEmotionDetector :=
  {| EmotionDetection.isInitialized := true;
     EmotionDetection.modelsLoaded := true |}.

(** A score that is a number, not [NaN]. *)
Definition is_number (e : string * number) : Prop := is_NaN (snd e) = false.

(** [best] is the first entry of [entries] with the greatest score: the
    entries before it score strictly less, those after it at most as much. *)
Definition first_maximum (entries : list (string * number))
    (best : string * number) : Prop :=
  exists before after,
    entries = before ++ best :: after /\
    Forall (fun e => lt (snd e) (snd best) = true) before /\
    Forall (fun e => le (snd e) (snd best) = true) after.

(** The capability's age is missing, not a number, or finite and not
    negative. *)
Definition absent_or_nonneg (x : option number) : Prop :=
  match x with
  | None | Some NaN => True
  | Some (Finite q) => 0 <= q
  | Some _ => False
  end.

(** *** The gates of [processFrame] *)

Definition isSome {A} (x : option A) : bool :=
  match x with Some _ => true | None => false end.

(** The first guard of [processFrame] lets the call through. *)
Definition running (t : Hook.Tick) (s : Hook.State) : bool :=
  Hook.isActive t && isSome (Hook.video t) && isSome (Hook.detectorRef s)
  && Hook.isInitialized s.

(** The video frame can be decoded: [readyState === 4] and both dimensions
    are known. *)
Definition decodable (v : Hook.HTMLVideoElement) : bool :=
  (Hook.readyState v =? 4)%nat && negb (Hook.videoWidth v =? 0)%nat
  && negb (Hook.videoHeight v =? 0)%nat.

Definition frame_decodable (t : Hook.Tick) : bool :=
  match Hook.video t with Some v => decodable v | None => false end.

(** Less than the throttle period has elapsed since the last attempt. *)
Definition throttled (t : Hook.Tick) (s : Hook.State) : bool :=
  Hook.Qltb (Hook.performance_now t - Hook.lastProcessTimeRef s) 333.

(** The time that [n] throttle periods take. *)
Definition periods (n : nat) : Q := inject_Z (Z.of_nat n) * 333.

(** Between mount and unmount: while the ref holds no detector no load
    has been started, and never more than one has. *)
Definition one_load (w : Hook.State * Loading.Loader) : Prop :=
  (Hook.detectorRef (fst w) = None -> Loading.started (snd w) = 0%nat) /\
  (Loading.started (snd w) <= 1)%nat.

(** ** Sample inputs *)

Definition expressions_of (n h s a f d su : Q) : faceapi.FaceExpressions :=
  {| faceapi.neutral := Some (Finite n);
     faceapi.happy := Some (Finite h);
     faceapi.sad := Some (Finite s);
     faceapi.angry := Some (Finite a);
     faceapi.fearful := Some (Finite f);
     faceapi.disgusted := Some (Finite d);
     faceapi.surprised := Some (Finite su) |}.

(** [happy] and [sad] tie at 0.5, everything else is lower. *)
Definition tie_detection : faceapi.Detection :=
  {| faceapi.expressions := expressions_of 0 (1 # 2) (1 # 2) 0 0 0 0;
     faceapi.age := Some (Finite (61 # 2));
     faceapi.gender := Some "female" |}.

(** [disgusted] scores highest. *)
Definition disgusted_detection : faceapi.Detection :=
  {| faceapi.expressions :=
       expressions_of (1 # 10) 0 (1 # 10) (1 # 10) 0 (7 # 10) 0;
     faceapi.age := Some (Finite 30);
     faceapi.gender := Some "male" |}.

(** The age regression yields a negative number. *)
Definition negative_age_detection : faceapi.Detection :=
  {| faceapi.expressions := expressions_of 1 0 0 0 0 0 0;
     faceapi.age := Some (Finite (- 7 # 2));
     faceapi.gender := None |}.

Definition liveVideo : Hook.HTMLVideoElement :=
  {| Hook.readyState := 4; Hook.videoWidth := 640; Hook.videoHeight := 480 |}.

(** A video element that has its first frame but not yet enough data:
    [readyState] is [HAVE_CURRENT_DATA]. *)
Definition loadingVideo : Hook.HTMLVideoElement :=
  {| Hook.readyState := 2; Hook.videoWidth := 640; Hook.videoHeight := 480 |}.

(** The hook once [initializeDetector] has succeeded. *)
Definition readyHook : Hook.State :=
  Hook.setIsInitialized true
    (Hook.setDetectorRef (Some readyDetector) Hook.mount).

Definition tick_at (now : Q) (v : Hook.HTMLVideoElement)
    (capability : completion (list faceapi.Detection)) : Hook.Tick :=
  {| Hook.isActive := true;
     Hook.video := Some v;
     Hook.performance_now := now;
     Hook.Date_now := 1700000000000;
     Hook.handle := 7;
     Hook.capability := capability |}.

(** Ticks every 16 ms, from 0 ms to 992 ms, with the capability ready, the
    frame decodable and a face in every frame. *)
Definition ticks_every_16ms : list Hook.Tick :=
  map (fun k => tick_at (inject_Z (16 * Z.of_nat k)) liveVideo
                  (Normal [tie_detection]))
      (seq 0 63).

(** ** components/interview/EmotionalStatePanel *)
Module Panel.

(** [a >= b] on numbers. *)
Definition ge (a b : number) : bool := le b a.

(** The number literals [0.7] and [0.4]: the doubles nearest to them. *)
Definition double_0_7 : Q := 3152519739159347 # 4503599627370496.
Definition double_0_4 : Q := 3602879701896397 # 9007199254740992.

Definition getConfidenceColor (confidence : number) : string :=
  if ge confidence (Finite double_0_7) then "text-green-600"
  else if ge confidence (Finite double_0_4) then "text-yellow-600"
  else "text-red-600".

Definition getConfidenceLabel (confidence : number) : string :=
  if ge confidence (Finite double_0_7) then "High Confidence"
  else if ge confidence (Finite double_0_4) then "Moderate Confidence"
  else "Low Confidence".

Definition toneMap : list (string * string) :=
  [ ("happy", "Positive"); ("sad", "Melancholic"); ("angry", "Intense");
    ("surprised", "Energetic"); ("fearful", "Anxious");
    ("disgusted", "Disapproving"); ("neutral", "Balanced") ].

(** [toneMap[dominant] || 'Balanced'] (every tone of the table is a
    non-empty string). *)
Definition getEmotionalTone (dominant : string) : string :=
  match Hook.lookup toneMap dominant with
  | Some tone => tone
  | None => "Balanced"
  end.

(** ToBoolean on a possibly undefined number and string. *)
Definition truthy_number (x : option number) : bool :=
  match x with Some a => truthy a | None => false end.

Definition truthy_string (x : option string) : bool :=
  match x with Some "" | None => false | Some _ => true end.

(** The conditions under which the panel renders the age and gender block
    and its two rows:
    [additionalData?.faceDetected &&
       (additionalData.age || additionalData.gender) && (...)],
    [additionalData.age && (...)], [additionalData.gender && (...)]. *)
Definition additionalShown (a : Hook.AdditionalData) : bool :=
  Hook.faceDetected a
  && (truthy_number (Hook.age a) || truthy_string (Hook.gender a)).

Definition ageShown (a : Hook.AdditionalData) : bool :=
  additionalShown a && truthy_number (Hook.age a).

Definition genderShown (a : Hook.AdditionalData) : bool :=
  additionalShown a && truthy_string (Hook.gender a).

End Panel.

(** ** The hook between mount and unmount

    What happens to a mounted hook: calls of [initializeDetector] and
    completions of the model loads, and calls of [processFrame]. *)
Inductive hook_event : Type :=
| Init (e : Loading.event)
| Frame (t : Hook.Tick).

Fixpoint hook_run (evs : list hook_event) (w : Hook.State * Loading.Loader)
  : (Hook.State * Loading.Loader) * list Hook.effect :=
  match evs with
  | [] => (w, [])
  | Init e :: rest => hook_run rest (Hook.init_step e w)
  | Frame t :: rest =>
      let (s1, done) := Hook.processFrame t (fst w) in
      let (w2, more) := hook_run rest (s1, snd w) in
      (w2, done ++ more)
  end.

(** While [isInitialized] is set the ref holds a detector whose models are
    loaded, and while the ref is empty [isInitialized] is not set. *)
Definition initialized_means_ready (s : Hook.State) : Prop :=
  (Hook.detectorRef s = None -> Hook.isInitialized s = false) /\
  (Hook.isInitialized s = true ->
   exists d, Hook.detectorRef s = Some d /\ ready d = true).

(** A raw score that is missing or a finite number between 0 and 1. *)
Definition unit_score (x : option number) : Prop :=
  match x with
  | None => True
  | Some (Finite q) => 0 <= q <= 1
  | Some _ => False
  end.

Definition unit_scores (x : faceapi.FaceExpressions) : Prop :=
  unit_score (faceapi.neutral x) /\ unit_score (faceapi.happy x) /\
  unit_score (faceapi.sad x) /\ unit_score (faceapi.angry x) /\
  unit_score (faceapi.fearful x) /\ unit_score (faceapi.disgusted x) /\
  unit_score (faceapi.surprised x).

(** A number that is finite and between 0 and 1. *)
Definition in_unit (a : number) : Prop :=
  match a with Finite q => 0 <= q <= 1 | _ => False end.

(** A detection none of whose expression scores is a truthy number. *)
Definition blank_detection : faceapi.Detection :=
  {| faceapi.expressions :=
       {| faceapi.neutral := None; faceapi.happy := Some NaN;
          faceapi.sad := Some (Finite 0); faceapi.angry := None;
          faceapi.fearful := None; faceapi.disgusted := None;
          faceapi.surprised := None |};
     faceapi.age := None;
     faceapi.gender := Some "" |}.

(** ** components/interview/IntegratedAIInterviewWithTracking

    The camera controls of the interview page ([CameraEmotionDetector] has
    the same ones without the microphone). *)
Module Camera.

Inductive TrackKind : Type := audio_kind | video_kind.

(** A [MediaStreamTrack]: [live] is [readyState === "live"]. *)
Record MediaStreamTrack : Type := {
  kind : TrackKind;
  enabled : bool;
  live : bool
}.

(** [track.stop()]. *)
Definition stop (t : MediaStreamTrack) : MediaStreamTrack :=
  {| kind := kind t; enabled := enabled t; live := false |}.

(** [track.enabled = b] on the audio tracks ([getAudioTracks()]). *)
Definition setAudioEnabled (b : bool) (t : MediaStreamTrack)
  : MediaStreamTrack :=
  match kind t with
  | audio_kind => {| kind := kind t; enabled := b; live := live t |}
  | video_kind => t
  end.

(** Media streams are objects shared between the [stream] cell, the video
    element and the browser: [streams] holds every stream [getUserMedia]
    has handed out, in order, with the present state of its tracks, and a
    stream is referred to by its position. *)
Record State : Type := {
  cameraEnabled : bool;
  micEnabled : bool;
  stream : option nat;
  isVideoReady : bool;
  srcObject : option nat;
  onloadeddata : bool;
  streams : list (list MediaStreamTrack)
}.

Definition initial : State :=
  {| cameraEnabled := false; micEnabled := false; stream := None;
     isVideoReady := false; srcObject := None; onloadeddata := false;
     streams := [] |}.

(** Apply [f] to the element at position [n]. *)
Fixpoint update {A} (n : nat) (f : A -> A) (l : list A) : list A :=
  match l, n with
  | [], _ => []
  | x :: rest, O => f x :: rest
  | x :: rest, S m => x :: update m f rest
  end.

(** [initializeCamera] from its [await] on, when [getUserMedia] resolved
    to a new stream with the given tracks; [hasVideo] tells whether
    [videoRef.current] is set. *)
Definition initializeCamera_resolve (hasVideo : bool)
    (tracks : list MediaStreamTrack) (c : State) : State :=
  let mediaStream := List.length (streams c) in
  if hasVideo then
    {| cameraEnabled := true; micEnabled := true;
       stream := Some mediaStream;
       isVideoReady := isVideoReady c;
       srcObject := Some mediaStream;
       onloadeddata := true;
       streams := streams c ++ [tracks] |}
  else
    {| cameraEnabled := cameraEnabled c; micEnabled := micEnabled c;
       stream := stream c; isVideoReady := isVideoReady c;
       srcObject := srcObject c; onloadeddata := onloadeddata c;
       streams := streams c ++ [tracks] |}.

(** [initializeCamera] when [getUserMedia] rejected. *)
Definition initializeCamera_reject (c : State) : State * list console :=
  (c, [console_error "Error accessing camera:"]).

(** The [loadeddata] event of the video element. *)
Definition loadeddata (c : State) : State * list console :=
  if onloadeddata c then
    ({| cameraEnabled := cameraEnabled c; micEnabled := micEnabled c;
        stream := stream c; isVideoReady := true;
        srcObject := srcObject c; onloadeddata := onloadeddata c;
        streams := streams c |},
     [console_log "Video ready for face-api.js processing"])
  else (c, []).

(** [stopCamera], reading [stream] from the render it was created in. *)
Definition stopCamera (hasVideo : bool) (c : State) : State :=
  {| cameraEnabled := false; micEnabled := false;
     stream := match stream c with Some _ => None | None => stream c end;
     isVideoReady := false;
     srcObject := if hasVideo then None else srcObject c;
     onloadeddata := onloadeddata c;
     streams := match stream c with
                | Some s => update s (map stop) (streams c)
                | None => streams c
                end |}.

(** [toggleCamera]; the flag tells whether it called [initializeCamera],
    that is, whether [getUserMedia] was requested. *)
Definition toggleCamera (hasVideo : bool) (c : State) : State * bool :=
  if cameraEnabled c then (stopCamera hasVideo c, false) else (c, true).

Definition toggleMicrophone (c : State) : State :=
  match stream c with
  | Some s =>
      {| cameraEnabled := cameraEnabled c;
         micEnabled := negb (micEnabled c);
         stream := stream c; isVideoReady := isVideoReady c;
         srcObject := srcObject c; onloadeddata := onloadeddata c;
         streams :=
           update s (map (setAudioEnabled (negb (micEnabled c))))
             (streams c) |}
  | None => c
  end.

(** The [isActive] argument the page passes to the hook. *)
Definition hookActive (c : State) : bool :=
  cameraEnabled c && isVideoReady c.

(** What happens to the mounted page.  Each event finds the page rendered
    after the previous one, so that the handlers read the current cells;
    the video element is present while the page is mounted. *)
Inductive event : Type :=
| clickCamera
| resolved (tracks : list MediaStreamTrack)
| rejected
| loaded
| clickMicrophone.

Definition step (e : event) (c : State) : State :=
  match e with
  | clickCamera => fst (toggleCamera true c)
  | resolved tracks => initializeCamera_resolve true tracks c
  | rejected => fst (initializeCamera_reject c)
  | loaded => fst (loadeddata c)
  | clickMicrophone => toggleMicrophone c
  end.

Definition run (es : list event) (c : State) : State :=
  fold_left (fun c e => step e c) es c.

(** The tracks of the stream held in the [stream] cell. *)
Definition held (c : State) : list MediaStreamTrack :=
  match stream c with
  | Some s => nth s (streams c) []
  | None => []
  end.

(** [getUserMedia] hands out tracks that are live and enabled. *)
Definition fresh (e : event) : Prop :=
  match e with
  | resolved tracks =>
      Forall (fun t => enabled t = true /\ live t = true) tracks
  | _ => True
  end.

(** What the controls keep true of the page. *)
Definition consistent (c : State) : Prop :=
  cameraEnabled c = isSome (stream c) /\
  (micEnabled c = true -> cameraEnabled c = true) /\
  (forall s, stream c = Some s ->
             (s < List.length (streams c))%nat /\ srcObject c = Some s) /\
  Forall (fun t => kind t = audio_kind -> enabled t = micEnabled c)
    (held c).

End Camera.

(** The page with the camera on: the button was clicked, [getUserMedia]
    resolved to a stream with a video and an audio track, and the video
    element has loaded its first frame. *)
Definition camera_on_events : list Camera.event :=
  [ Camera.clickCamera;
    Camera.resolved
      [ {| Camera.kind := Camera.video_kind; Camera.enabled := true;
           Camera.live := true |};
        {| Camera.kind := Camera.audio_kind; Camera.enabled := true;
           Camera.live := true |} ];
    Camera.loaded ].

Definition camera_on : Camera.State :=
  Camera.run camera_on_events Camera.initial.

(** * Properties *)

(** ** Order on numbers *)
Section NumberOrder.

Ltac order_cases :=
  intros;
  repeat match goal with
         | a : number |- _ => destruct a
         end;
  simpl in *; try reflexivity; try discriminate;
  repeat match goal with
         | H : negb _ = true |- _ => apply negb_true_iff in H
         | H : negb _ = false |- _ => apply negb_false_iff in H
         | H : Qle_bool _ _ = true |- _ => apply Qle_bool_iff in H
         | H : Qle_bool _ _ = false |- _ =>
             apply not_true_iff_false in H; rewrite Qle_bool_iff in H
         end;
  try (apply negb_true_iff; apply not_true_iff_false);
  try rewrite Qle_bool_iff;
  try lra.

Lemma or_default_not_NaN (x : option number) :
  is_NaN (or_default x (Finite 0)) = false.
Proof.
  destruct x as [[| |q|]|]; simpl; try reflexivity.
  destruct (negb (Qeq_bool q 0)); reflexivity.
Qed.

Lemma not_gt_le (a b : number) :
  is_NaN a = false -> is_NaN b = false -> gt a b = false -> le a b = true.
Proof. unfold gt. order_cases. Qed.

Lemma lt_trans (a b c : number) :
  lt a b = true -> lt b c = true -> lt a c = true.
Proof. order_cases. Qed.

Lemma le_lt_trans (a b c : number) :
  le a b = true -> lt b c = true -> lt a c = true.
Proof. order_cases. Qed.

Lemma lt_le (a b : number) : lt a b = true -> le a b = true.
Proof. order_cases. Qed.

Lemma le_refl (a : number) : is_NaN a = false -> le a a = true.
Proof. order_cases. Qed.

End NumberOrder.

(** ** Selection of the dominant emotion *)
Section Selection.
Import EmotionDetection.

(** The invariant of the scan: [x] is the accumulator, [before] the
    entries seen before it and [skipped] those seen since. *)
Lemma scan_first_maximum (rest before skipped : list (string * number))
    (x : string * number) :
  Forall is_number (x :: rest) ->
  Forall (fun e => lt (snd e) (snd x) = true) before ->
  Forall (fun e => le (snd e) (snd x) = true) skipped ->
  first_maximum (before ++ x :: skipped ++ rest) (fold_left pick rest x).
Proof.
  revert before skipped x.
  induction rest as [|y rest IH]; intros before skipped x Hnum Hb Hs.
  - exists before, skipped. rewrite app_nil_r. auto.
  - simpl. inversion Hnum as [|? ? Hx Hrest]; subst.
    inversion Hrest as [|? ? Hy Hrest']; subst.
    unfold pick at 2. destruct (gt (snd y) (snd x)) eqn:Hgt.
    + unfold gt in Hgt.
      replace (before ++ x :: skipped ++ y :: rest)
        with ((before ++ x :: skipped) ++ y :: [] ++ rest)
        by (rewrite <- app_assoc; reflexivity).
      apply IH; [constructor; assumption | | constructor].
      apply Forall_app; split; [|constructor].
      * eapply Forall_impl; [|exact Hb].
        intros e He. simpl in He |- *. eapply lt_trans; eassumption.
      * exact Hgt.
      * eapply Forall_impl; [|exact Hs].
        intros e He. simpl in He |- *. eapply le_lt_trans; eassumption.
    + replace (before ++ x :: skipped ++ y :: rest)
        with (before ++ x :: (skipped ++ [y]) ++ rest)
        by (rewrite <- app_assoc; reflexivity).
      apply IH; [constructor; assumption | assumption |].
      apply Forall_app; split; [assumption|].
      constructor; [|constructor].
      apply not_gt_le; assumption.
Qed.

Lemma reduce_first_maximum (x : string * number)
    (rest : list (string * number)) :
  Forall is_number (x :: rest) ->
  first_maximum (x :: rest) (fold_left pick rest x).
Proof.
  intros Hnum.
  apply (scan_first_maximum rest [] [] x Hnum); constructor.
Qed.

Lemma convert_numbers (x : faceapi.FaceExpressions) :
  Forall is_number (Object_entries (convert x)).
Proof.
  unfold Object_entries, convert, is_number; simpl.
  repeat constructor; apply or_default_not_NaN.
Qed.

Lemma first_maximum_greatest entries best :
  Forall is_number entries ->
  first_maximum entries best ->
  In best entries /\
  Forall (fun e => le (snd e) (snd best) = true) entries.
Proof.
  intros Hnum (before & after & -> & Hb & Ha). split.
  - apply in_or_app. right. left. reflexivity.
  - apply Forall_app. split.
    + eapply Forall_impl; [|exact Hb]. intros e. apply lt_le.
    + constructor; [|exact Ha].
      apply le_refl. apply Forall_app in Hnum. destruct Hnum as [_ Hn].
      inversion Hn; assumption.
Qed.

(** What [detectEmotions] returns, by cases on the detector and on the
    completion of the face-api.js call. *)
Lemma detectEmotions_cases (this : FaceApiEmotionDetector)
    (capability : completion (list faceapi.Detection)) :
  (ready this = false /\
   detectEmotions this capability =
     ([console_warn "face-api.js not initialized"], Normal None)) \/
  (ready this = true /\ (exists error, capability = Throw error) /\
   detectEmotions this capability =
     ([console_error "Error in face-api.js emotion detection:"],
      Normal None)) \/
  (ready this = true /\ capability = Normal [] /\
   detectEmotions this capability =
     ([console_log "No face detected by face-api.js"],
      Normal (Some noFaceResult))) \/
  (ready this = true /\
   exists detection others result,
     capability = Normal (detection :: others) /\
     detectEmotions this capability =
       ([console_log "face-api.js emotion detected:"],
        Normal (Some result)) /\
     emotions result = convert (faceapi.expressions detection) /\
     (dominant result, confidence result) =
       fold_left pick (tl (Object_entries (emotions result)))
         ("neutral", neutral (emotions result)) /\
     age result =
       Some (Math_round (or_default (faceapi.age detection) (Finite 0))) /\
     gender result = Some (gender_or_unknown (faceapi.gender detection)) /\
     faceDetected result = true).
Proof.
  unfold ready, detectEmotions.
  destruct (isInitialized this), (modelsLoaded this); simpl;
    try (left; split; reflexivity).
  right. destruct capability as [[|detection others]|error]; simpl.
  - right. left. repeat split.
  - right. right. split; [reflexivity|].
    exists detection, others.
    match goal with
    | |- context [pick ?acc ("surprised", ?v)] =>
        destruct (pick acc ("surprised", v)) as [name score] eqn:Hbest
    end.
    eexists. split; [reflexivity|]. split; [reflexivity|]. simpl.
    rewrite Hbest. repeat split.
  - left. split; [reflexivity|]. split; [eexists; reflexivity|reflexivity].
Qed.

End Selection.

Section Detector.
Import EmotionDetection.

Lemma first_maximum_unique entries best best' :
  first_maximum entries best -> first_maximum entries best' ->
  best = best'.
Proof.
  intros (b & a & -> & Hb & Ha) (b' & a' & Heq & Hb' & Ha').
  assert (clash : forall x y : number,
             lt x y = true -> le y x = true -> False).
  { intros [| |x|] [| |y|]; simpl; try discriminate.
    rewrite negb_true_iff. intros H1 H2. congruence. }
  apply app_eq_app in Heq. destruct Heq as (l & [[-> Ha2] | [-> Ha2]]).
  - destruct l as [|z l]; simpl in Ha2.
    + congruence.
    + injection Ha2 as -> ->. exfalso.
      apply Forall_app in Hb. destruct Hb as [_ Hb].
      inversion Hb as [|? ? Hlt _]; subst.
      rewrite Forall_forall in Ha'.
      apply (clash _ _ Hlt). apply Ha'.
      apply in_or_app. right. left. reflexivity.
  - destruct l as [|z l]; simpl in Ha2.
    + congruence.
    + injection Ha2 as -> ->. exfalso.
      apply Forall_app in Hb'. destruct Hb' as [_ Hb'].
      inversion Hb' as [|? ? Hlt _]; subst.
      rewrite Forall_forall in Ha.
      apply (clash _ _ Hlt). apply Ha.
      apply in_or_app. right. left. reflexivity.
Qed.

(** A result with [faceDetected = true] comes from the branch that
    converts the first detection. *)
Lemma face_result_inversion this capability result :
  snd (detectEmotions this capability) = Normal (Some result) ->
  faceDetected result = true ->
  exists detection others,
    capability = Normal (detection :: others) /\
    emotions result = convert (faceapi.expressions detection) /\
    (dominant result, confidence result) =
      fold_left pick (tl (Object_entries (emotions result)))
        ("neutral", neutral (emotions result)) /\
    age result =
      Some (Math_round (or_default (faceapi.age detection) (Finite 0))) /\
    gender result = Some (gender_or_unknown (faceapi.gender detection)).
Proof.
  intros Hret Hface.
  destruct (detectEmotions_cases this capability)
    as [[_ E] | [(_ & _ & E) | [(_ & _ & E) |
        (_ & d & ds & r & Hcap & E & He & Hbest & Hage & Hgen & _)]]];
    rewrite E in Hret; simpl in Hret; try discriminate.
  - injection Hret as <-. discriminate.
  - injection Hret as <-. exists d, ds. auto.
Qed.

(** A result with [faceDetected = false] is the no-face result. *)
Lemma no_face_result_inversion this capability result :
  snd (detectEmotions this capability) = Normal (Some result) ->
  faceDetected result = false ->
  result = noFaceResult.
Proof.
  intros Hret Hface.
  destruct (detectEmotions_cases this capability)
    as [[_ E] | [(_ & _ & E) | [(_ & _ & E) |
        (_ & d & ds & r & Hcap & E & _ & _ & _ & _ & Hf)]]];
    rewrite E in Hret; simpl in Hret; try discriminate.
  - injection Hret as <-. reflexivity.
  - injection Hret as <-. congruence.
Qed.

(** With a face detected, the dominant entry is the first maximum of the
    scan and no entry scores more than the confidence. *)
Lemma dominant_first_maximum this capability result :
  snd (detectEmotions this capability) = Normal (Some result) ->
  faceDetected result = true ->
  first_maximum (Object_entries (emotions result))
    (dominant result, confidence result) /\
  Forall (fun e => le (snd e) (confidence result) = true)
    (Object_entries (emotions result)).
Proof.
  intros Hret Hface.
  destruct (face_result_inversion _ _ _ Hret Hface)
    as (d & ds & _ & Hconv & Hbest & _).
  assert (Hnum : Forall is_number (Object_entries (emotions result)))
    by (rewrite Hconv; apply convert_numbers).
  assert (Hfirst : first_maximum (Object_entries (emotions result))
                     (dominant result, confidence result)).
  { rewrite Hbest. apply reduce_first_maximum. exact Hnum. }
  split; [exact Hfirst|].
  apply (first_maximum_greatest _ _ Hnum Hfirst).
Qed.

End Detector.

Section DetectorClaims.
Import EmotionDetection.

(** C3. When the external capability finds no face (the awaited call
    resolves to an empty array) and the detector is ready, the returned
    result has emotions [{neutral: 1, all others: 0}], dominant
    ["neutral"], confidence [0], [faceDetected = false], and neither age
    nor gender. *)
Theorem C3_no_face_result (this : FaceApiEmotionDetector) :
  ready this = true ->
  snd (detectEmotions this (Normal [])) =
    Normal (Some
      {| emotions := {| neutral := Finite 1; happy := Finite 0;
                        sad := Finite 0; angry := Finite 0;
                        fearful := Finite 0; disgusted := Finite 0;
                        surprised := Finite 0 |};
         dominant := "neutral";
         confidence := Finite 0;
         age := None;
         gender := None;
         faceDetected := false |}).
Proof.
  intros Hready.
  destruct (detectEmotions_cases this (Normal []))
    as [[Hnot _] | [(_ & [e He] & _) | [(_ & _ & E) |
        (_ & d & ds & _ & Hcap & _)]]];
    try congruence.
  rewrite E. reflexivity.
Qed.

Lemma C3_no_face_result_witness :
  ready readyDetector = true /\
  snd (detectEmotions readyDetector (Normal [])) =
    Normal (Some noFaceResult).
Proof.
  split; [reflexivity|].
  apply (C3_no_face_result readyDetector). reflexivity.
Defined.

(** C6. [detectEmotions] never throws: it always completes normally; when
    the detector is not ready it warns on the console and returns [null];
    and when the face-api.js call throws, the exception is caught and
    [null] is returned. *)
Theorem C6_detectEmotions_never_throws (this : FaceApiEmotionDetector)
    (capability : completion (list faceapi.Detection)) :
  (exists out result,
      detectEmotions this capability = (out, Normal result)) /\
  (ready this = false ->
   detectEmotions this capability =
     ([console_warn "face-api.js not initialized"], Normal None)) /\
  (forall error, capability = Throw error ->
   snd (detectEmotions this capability) = Normal None).
Proof.
  destruct (detectEmotions_cases this capability)
    as [[Hnot E] | [(Hr & [e He] & E) | [(Hr & Hcap & E) |
        (Hr & d & ds & r & Hcap & E & _)]]];
    rewrite E; (split; [eauto|]); split; try congruence; try reflexivity.
Qed.

Lemma C6_detectEmotions_never_throws_witness :
  detectEmotions new (Throw "boom") =
    ([console_warn "face-api.js not initialized"], Normal None) /\
  snd (detectEmotions readyDetector (Throw "boom")) = Normal None.
Proof.
  split.
  - apply (C6_detectEmotions_never_throws new (Throw "boom")). reflexivity.
  - apply (C6_detectEmotions_never_throws readyDetector (Throw "boom")
             ) with (error := "boom"). reflexivity.
Defined.

(** C7. With a face detected, the entries of the emotions object are
    scanned in the fixed order neutral, happy, sad, angry, fearful,
    disgusted, surprised; the dominant emotion is an entry of that object
    and the confidence is exactly its score; no entry scores more; every
    entry earlier in the order scores strictly less, so that on a tie the
    first one wins; and the entry with these properties is unique, so the
    same input always gives the same dominant emotion. *)
Theorem C7_dominant_is_first_maximum (this : FaceApiEmotionDetector)
    (capability : completion (list faceapi.Detection))
    (result : FaceApiDetectionResult) :
  snd (detectEmotions this capability) = Normal (Some result) ->
  faceDetected result = true ->
  map fst (Object_entries (emotions result)) = rawLabels /\
  first_maximum (Object_entries (emotions result))
    (dominant result, confidence result) /\
  Forall (fun e => le (snd e) (confidence result) = true)
    (Object_entries (emotions result)) /\
  (forall other,
      first_maximum (Object_entries (emotions result)) other ->
      other = (dominant result, confidence result)).
Proof.
  intros Hret Hface.
  destruct (dominant_first_maximum _ _ _ Hret Hface) as [Hfirst Hall].
  split; [reflexivity|]. split; [exact Hfirst|]. split; [exact Hall|].
  intros other Hother. eapply first_maximum_unique; eassumption.
Qed.

Lemma C7_dominant_is_first_maximum_witness :
  exists result,
    snd (detectEmotions readyDetector (Normal [tie_detection])) =
      Normal (Some result) /\
    happy (emotions result) = Finite (1 # 2) /\
    sad (emotions result) = Finite (1 # 2) /\
    dominant result = "happy" /\
    first_maximum (Object_entries (emotions result))
      (dominant result, confidence result).
Proof.
  eexists. split; [reflexivity|]. repeat (split; [reflexivity|]).
  eapply (C7_dominant_is_first_maximum readyDetector
            (Normal [tie_detection])); reflexivity.
Defined.

End DetectorClaims.

Section AgeAndGender.
Import EmotionDetection.

Lemma gender_or_unknown_nonempty (g : option string) :
  gender_or_unknown g <> "".
Proof. destruct g as [[|c s]|]; simpl; discriminate. Qed.

Lemma round_nonneg (x : option number) :
  absent_or_nonneg x ->
  nonneg_integer (Math_round (or_default x (Finite 0))).
Proof.
  assert (Hzero : nonneg_integer (Math_round (Finite 0))).
  { exists 0%Z. split; [lia | reflexivity]. }
  destruct x as [[| |q|]|]; simpl; intros Hx;
    try contradiction; try exact Hzero.
  destruct (negb (Qeq_bool q 0)); [|exact Hzero].
  exists (Qfloor (q + (1 # 2))). split; [|reflexivity].
  apply (Qfloor_resp_le 0 (q + (1 # 2))). lra.
Qed.

(** C10, as the code has it.  A result with [faceDetected = true] always
    carries an age and a gender.  The age is the capability's age (0 when
    missing, zero or not a number) rounded to the nearest integer; it is a
    non-negative integer whenever the capability's age is missing, not a
    number, or finite and not negative.  The gender is a non-empty
    string: the capability's, or ["unknown"] when that is missing or
    empty. *)
Theorem C10_age_and_gender_present (this : FaceApiEmotionDetector)
    (capability : completion (list faceapi.Detection))
    (result : FaceApiDetectionResult) :
  snd (detectEmotions this capability) = Normal (Some result) ->
  faceDetected result = true ->
  exists detection others,
    capability = Normal (detection :: others) /\
    age result =
      Some (Math_round (or_default (faceapi.age detection) (Finite 0))) /\
    (absent_or_nonneg (faceapi.age detection) ->
     exists a, age result = Some a /\ nonneg_integer a) /\
    (exists g, gender result = Some g /\ g <> "" /\
               g = gender_or_unknown (faceapi.gender detection)).
Proof.
  intros Hret Hface.
  destruct (face_result_inversion _ _ _ Hret Hface)
    as (d & ds & Hcap & _ & _ & Hage & Hgen).
  exists d, ds. repeat split; try assumption.
  - intros Hok. eexists. split; [exact Hage|]. apply round_nonneg, Hok.
  - eexists. split; [exact Hgen|]. split; [|reflexivity].
    apply gender_or_unknown_nonempty.
Qed.

Lemma C10_age_and_gender_present_witness :
  exists result,
    snd (detectEmotions readyDetector (Normal [tie_detection])) =
      Normal (Some result) /\
    age result = Some (Finite (inject_Z 31)) /\
    gender result = Some "female" /\
    exists a, age result = Some a /\ nonneg_integer a.
Proof.
  eexists. split; [reflexivity|]. repeat (split; [reflexivity|]).
  destruct (C10_age_and_gender_present readyDetector
              (Normal [tie_detection]) _ eq_refl eq_refl)
    as (d & ds & Hcap & _ & Hnonneg & _).
  injection Hcap as <- <-. apply Hnonneg. simpl. lra.
Defined.

(** C10 as stated fails: when the capability's age is negative, so is the
    age of the result. *)
Lemma C10_negative_age_counterexample :
  exists result,
    snd (detectEmotions readyDetector (Normal [negative_age_detection])) =
      Normal (Some result) /\
    faceDetected result = true /\
    age result = Some (Finite (inject_Z (-3))) /\
    forall a, age result = Some a -> ~ nonneg_integer a.
Proof.
  eexists. split; [reflexivity|]. repeat (split; [reflexivity|]).
  simpl. intros a Ha (n & Hn & Hq). injection Ha as <-.
  unfold inject_Z in Hq. injection Hq as Hq.
  subst n. apply Hn. reflexivity.
Qed.

End AgeAndGender.

(** ** The calls of [processFrame] *)
Section ProcessFrame.
Import Hook.

Lemma processFrame_idle (t : Tick) (s : State) :
  running t s && frame_decodable t = false ->
  processFrame t s = (s, []).
Proof.
  unfold running, frame_decodable, decodable, processFrame.
  destruct (video t) as [v|], (detectorRef s) as [d|];
    try reflexivity; simpl.
  destruct (isActive t), (isInitialized s); simpl; try reflexivity.
  destruct (readyState v =? 4)%nat, (videoWidth v =? 0)%nat,
    (videoHeight v =? 0)%nat; simpl; try reflexivity; discriminate.
Qed.

Lemma processFrame_throttled (t : Tick) (s : State) :
  running t s && frame_decodable t = true ->
  throttled t s = true ->
  processFrame t s =
    (setAnimationFrameRef (handle t) s, [RequestAnimationFrame (handle t)]).
Proof.
  unfold running, frame_decodable, decodable, throttled, processFrame,
    reschedule.
  destruct (video t) as [v|], (detectorRef s) as [d|]; simpl;
    try (rewrite ?andb_false_r; discriminate).
  destruct (isActive t), (isInitialized s); simpl; try discriminate.
  destruct (readyState v =? 4)%nat, (videoWidth v =? 0)%nat,
    (videoHeight v =? 0)%nat; simpl; try discriminate.
  intros _ ->. reflexivity.
Qed.

Lemma processFrame_sampled (t : Tick) (s : State) :
  running t s && frame_decodable t = true ->
  throttled t s = false ->
  exists detector,
    detectorRef s = Some detector /\
    let s1 := setLastProcessTimeRef (performance_now t) s in
    let called :=
      DetectEmotions
        :: map Console (fst (D.detectEmotions detector (capability t))) in
    let next := [RequestAnimationFrame (handle t)] in
    processFrame t s =
      match snd (D.detectEmotions detector (capability t)) with
      | Normal (Some result) =>
          let e := newEmotionState result (Date_now t) in
          let a := newAdditionalData result in
          (setAnimationFrameRef (handle t)
             (setAdditionalData a (setEmotionState e s1)),
           called ++
           [SetEmotionState e; SetAdditionalData a;
            Console (console_log "face-api.js processed:")] ++ next)
      | Normal None =>
          (setAnimationFrameRef (handle t) s1, called ++ [] ++ next)
      | Throw _ =>
          (setAnimationFrameRef (handle t) s1,
           called ++
           [Console (console_error "Error processing face-api.js frame:")]
           ++ next)
      end.
Proof.
  unfold running, frame_decodable, decodable, throttled, processFrame,
    reschedule.
  destruct (video t) as [v|], (detectorRef s) as [d|]; simpl;
    try (rewrite ?andb_false_r; discriminate).
  destruct (isActive t), (isInitialized s); simpl; try discriminate.
  destruct (readyState v =? 4)%nat, (videoWidth v =? 0)%nat,
    (videoHeight v =? 0)%nat; simpl; try discriminate.
  intros _ ->. exists d. split; [reflexivity|].
  destruct (D.detectEmotions d (capability t)) as [out [[r|]|e]];
    reflexivity.
Qed.

(** The three ways a call of [processFrame] can go. *)
Lemma processFrame_gates (t : Tick) (s : State) :
  running t s && frame_decodable t = false \/
  (running t s && frame_decodable t = true /\ throttled t s = true) \/
  (running t s && frame_decodable t = true /\ throttled t s = false).
Proof.
  destruct (running t s && frame_decodable t), (throttled t s); auto.
Qed.

Lemma not_in_console (x : effect) (out : list console) :
  (forall c, x <> Console c) -> ~ In x (map Console out).
Proof.
  intros Hx Hin. apply in_map_iff in Hin. destruct Hin as (c & Hc & _).
  apply (Hx c). congruence.
Qed.

(** Where a published emotion state comes from: the call sampled the
    frame, [detectEmotions] returned a result, and the state set is the
    conversion of that result. *)
Lemma published_origin (t : Tick) (s : State)
    (e : Mediapipe.EmotionState) :
  In (SetEmotionState e) (snd (processFrame t s)) ->
  exists detector result,
    detectorRef s = Some detector /\
    snd (D.detectEmotions detector (capability t))
      = Normal (Some result) /\
    e = newEmotionState result (Date_now t) /\
    In (SetAdditionalData (newAdditionalData result))
       (snd (processFrame t s)) /\
    emotionState (fst (processFrame t s)) = e /\
    additionalData (fst (processFrame t s)) = newAdditionalData result.
Proof.
  destruct (processFrame_gates t s) as [Hidle | [[Hrun Hth] | [Hrun Hth]]].
  - rewrite (processFrame_idle t s Hidle). intros [].
  - rewrite (processFrame_throttled t s Hrun Hth). simpl.
    intros [H|[]]; discriminate.
  - destruct (processFrame_sampled t s Hrun Hth) as (d & Hd & Hpf).
    simpl in Hpf. rewrite Hpf. clear Hpf.
    destruct (snd (D.detectEmotions d (capability t))) as [[r|]|err] eqn:Hres;
      simpl; intros [H|H]; try discriminate;
      apply in_app_or in H; destruct H as [H|H];
      try (exfalso; revert H; apply not_in_console; discriminate).
    + destruct H as [H|[H|[H|[H|[]]]]]; try discriminate.
      injection H as <-. exists d, r.
      repeat split; try assumption; try reflexivity.
      right. apply in_or_app. right. right. left. reflexivity.
    + destruct H as [H|[]]; discriminate.
    + destruct H as [H|[H|[]]]; discriminate.
Qed.

End ProcessFrame.

Section PublishedState.
Import Hook.
Import Mediapipe.

Lemma entry_cases (em : D.FaceApiEmotionResult) (k : string) (v : number) :
  In (k, v) (D.Object_entries em) ->
  (k = "neutral" /\ v = D.neutral em) \/
  (k = "happy" /\ v = D.happy em) \/
  (k = "sad" /\ v = D.sad em) \/
  (k = "angry" /\ v = D.angry em) \/
  (k = "fearful" /\ v = D.fearful em) \/
  (k = "disgusted" /\ v = D.disgusted em) \/
  (k = "surprised" /\ v = D.surprised em).
Proof.
  simpl. intros [H|[H|[H|[H|[H|[H|[H|[]]]]]]]];
    injection H as <- <-; tauto.
Qed.

(** The published scores are the detector's scores, key for key, with
    [disgusted] published as [disgust]. *)
Lemma published_scores_bound (result : D.FaceApiDetectionResult)
    (now : Z) (bound : number) :
  Forall (fun kv => le (snd kv) bound = true)
    (D.Object_entries (D.emotions result)) ->
  Forall (fun kv => le (snd kv) bound = true)
    (entries (scores (newEmotionState result now))).
Proof.
  intros H. rewrite Forall_forall in H. unfold D.Object_entries in H.
  unfold entries, newEmotionState; simpl.
  repeat constructor; simpl;
    match goal with
    | |- le ?v bound = true =>
        match goal with
        | H : forall x, In x ?l -> _ |- _ =>
            match l with
            | context [(?k, v)] => apply (H (k, v)); simpl; tauto
            end
        end
    end.
Qed.

Lemma published_scores_hold (result : D.FaceApiDetectionResult)
    (now : Z) (k : string) (v : number) :
  In (k, v) (D.Object_entries (D.emotions result)) ->
  exists kv,
    In kv (entries (scores (newEmotionState result now))) /\ snd kv = v.
Proof.
  intros Hin. apply entry_cases in Hin. unfold entries; simpl.
  destruct Hin as [[_ ->]|[[_ ->]|[[_ ->]|[[_ ->]|[[_ ->]|
                   [[_ ->]|[_ ->]]]]]]];
    [ exists ("neutral", D.neutral (D.emotions result))
    | exists ("happy", D.happy (D.emotions result))
    | exists ("sad", D.sad (D.emotions result))
    | exists ("angry", D.angry (D.emotions result))
    | exists ("fearful", D.fearful (D.emotions result))
    | exists ("disgust", D.disgusted (D.emotions result))
    | exists ("surprised", D.surprised (D.emotions result)) ];
    (split; [simpl; tauto | reflexivity]).
Qed.

(** C1, as the code has it.  Whenever a call of [processFrame] publishes
    an emotion state, it publishes additional data with it, and:
    if a face was detected, the confidence is the greatest score of the
    published mapping (no score exceeds it and some category holds it),
    and [scores[dominant]] is exactly the confidence whenever [dominant]
    is not the raw label ["disgusted"]; if no face was detected, dominant
    is ["neutral"], which holds the greatest score 1, while the
    confidence is 0. *)
Theorem C1_published_confidence (t : Tick) (s : State)
    (e : EmotionState) :
  In (SetEmotionState e) (snd (processFrame t s)) ->
  exists a,
    In (SetAdditionalData a) (snd (processFrame t s)) /\
    (faceDetected a = true ->
       Forall (fun kv => le (snd kv) (confidence e) = true)
         (entries (scores e)) /\
       (exists kv, In kv (entries (scores e)) /\ snd kv = confidence e) /\
       (dominant e <> "disgusted" ->
        get (scores e) (dominant e) = Some (confidence e))) /\
    (faceDetected a = false ->
       dominant e = "neutral" /\
       confidence e = Finite 0 /\
       scores e = {| neutral := Finite 1; happy := Finite 0;
                     sad := Finite 0; angry := Finite 0;
                     surprised := Finite 0; fearful := Finite 0;
                     disgust := Finite 0 |}).
Proof.
  intros Hpub.
  destruct (published_origin t s e Hpub)
    as (d & r & _ & Hres & -> & Hadd & _ & _).
  exists (newAdditionalData r). split; [exact Hadd|]. simpl. split.
  - intros Hface.
    destruct (dominant_first_maximum d (capability t) r Hres Hface)
      as (Hfirst & Hall).
    split; [apply (published_scores_bound r (Date_now t)); exact Hall|].
    destruct Hfirst as (before & after & Hsplit & _).
    assert (Hin : In (D.dominant r, D.confidence r)
                    (D.Object_entries (D.emotions r))).
    { rewrite Hsplit. apply in_or_app. right. left. reflexivity. }
    split; [apply (published_scores_hold r (Date_now t) _ _ Hin)|].
    apply entry_cases in Hin.
    destruct Hin as [[Hk Hv]|[[Hk Hv]|[[Hk Hv]|[[Hk Hv]|[[Hk Hv]|
                     [[Hk Hv]|[Hk Hv]]]]]]];
      rewrite Hk, Hv; intros Hne; try reflexivity; congruence.
  - intros Hface.
    rewrite (no_face_result_inversion d (capability t) r Hres Hface).
    repeat split.
Qed.

End PublishedState.

Section PublishedStateClaims.
Import Hook.
Import Mediapipe.

Lemma C1_published_confidence_witness :
  exists e,
    In (SetEmotionState e)
       (snd (processFrame
               (tick_at 1000 liveVideo (Normal [tie_detection]))
               readyHook)) /\
    dominant e = "happy" /\
    confidence e = Finite (1 # 2) /\
    get (scores e) (dominant e) = Some (confidence e).
Proof.
  set (t := tick_at 1000 liveVideo (Normal [tie_detection])).
  assert (Hpub : In (SetEmotionState
                       (emotionState (fst (processFrame t readyHook))))
                    (snd (processFrame t readyHook)))
    by (vm_compute; tauto).
  eexists. split; [exact Hpub|].
  split; [reflexivity|]. split; [reflexivity|].
  destruct (C1_published_confidence t readyHook _ Hpub)
    as (a & Ha & Hface & _).
  assert (a = newAdditionalData
                {| D.emotions := D.convert (faceapi.expressions tie_detection);
                   D.dominant := "happy";
                   D.confidence := Finite (1 # 2);
                   D.age := Some (Finite (inject_Z 31));
                   D.gender := Some "female";
                   D.faceDetected := true |}) as ->.
  { vm_compute in Ha.
    destruct Ha as [Ha|[Ha|[Ha|[Ha|[Ha|[Ha|[]]]]]]]; try discriminate.
    injection Ha as <-. reflexivity. }
  apply Hface; [reflexivity | discriminate].
Defined.

(** C1 as stated fails on the state published when no face is found: its
    confidence is 0 while [scores[dominant]] is 1. *)
Lemma C1_no_face_counterexample :
  exists e,
    In (SetEmotionState e)
       (snd (processFrame (tick_at 1000 liveVideo (Normal [])) readyHook))
    /\ dominant e = "neutral"
    /\ get (scores e) (dominant e) = Some (Finite 1)
    /\ confidence e = Finite 0
    /\ get (scores e) (dominant e) <> Some (confidence e).
Proof.
  eexists. split; [vm_compute; right; right; left; reflexivity|].
  repeat split. discriminate.
Qed.

(** C2, as the code has it.  Whenever a call of [processFrame] publishes
    an emotion state, the keys of its score mapping are exactly the
    closed set neutral, happy, sad, angry, surprised, fearful, disgust,
    and the raw score [disgusted] is published under [disgust]; the
    dominant field is the detector's label, unchanged: one of the raw
    labels neutral, happy, sad, angry, fearful, disgusted, surprised, and
    hence a member of the closed set unless it is ["disgusted"]. *)
Theorem C2_published_categories (t : Tick) (s : State)
    (e : EmotionState) :
  In (SetEmotionState e) (snd (processFrame t s)) ->
  map fst (entries (scores e)) = EmotionCategory /\
  (exists detector result,
      detectorRef s = Some detector /\
      snd (D.detectEmotions detector (capability t))
        = Normal (Some result) /\
      dominant e = D.dominant result /\
      get (scores e) "disgust" = Some (D.disgusted (D.emotions result))) /\
  In (dominant e) rawLabels /\
  (dominant e <> "disgusted" -> In (dominant e) EmotionCategory).
Proof.
  intros Hpub.
  destruct (published_origin t s e Hpub)
    as (d & r & Hd & Hres & -> & _ & _ & _).
  split; [reflexivity|].
  split; [exists d, r; repeat split; assumption|].
  simpl dominant.
  destruct (D.faceDetected r) eqn:Hface.
  - destruct (dominant_first_maximum d (capability t) r Hres Hface)
      as ((before & after & Hsplit & _) & _).
    assert (Hin : In (D.dominant r, D.confidence r)
                    (D.Object_entries (D.emotions r))).
    { rewrite Hsplit. apply in_or_app. right. left. reflexivity. }
    apply entry_cases in Hin.
    destruct Hin as [[Hk _]|[[Hk _]|[[Hk _]|[[Hk _]|[[Hk _]|
                     [[Hk _]|[Hk _]]]]]]];
      rewrite Hk; (split; [simpl; tauto|]);
      intros Hne; try (simpl; tauto); congruence.
  - rewrite (no_face_result_inversion d (capability t) r Hres Hface).
    simpl. tauto.
Qed.

Lemma C2_published_categories_witness :
  exists e,
    In (SetEmotionState e)
       (snd (processFrame
               (tick_at 1000 liveVideo (Normal [tie_detection]))
               readyHook)) /\
    dominant e = "happy" /\
    In (dominant e) EmotionCategory.
Proof.
  set (t := tick_at 1000 liveVideo (Normal [tie_detection])).
  assert (Hpub : In (SetEmotionState
                       (emotionState (fst (processFrame t readyHook))))
                    (snd (processFrame t readyHook)))
    by (vm_compute; tauto).
  eexists. split; [exact Hpub|]. split; [reflexivity|].
  apply (C2_published_categories t readyHook _ Hpub). discriminate.
Defined.

(** C2 as stated fails when [disgusted] scores highest: the published
    dominant field is the raw label ["disgusted"], which is not in the
    closed set, while the score itself is published under [disgust]. *)
Lemma C2_disgusted_counterexample :
  exists e,
    In (SetEmotionState e)
       (snd (processFrame
               (tick_at 1000 liveVideo (Normal [disgusted_detection]))
               readyHook))
    /\ dominant e = "disgusted"
    /\ disgust (scores e) = Finite (7 # 10)
    /\ ~ In (dominant e) EmotionCategory.
Proof.
  eexists. split; [vm_compute; right; right; left; reflexivity|].
  repeat split. simpl.
  intros [H|[H|[H|[H|[H|[H|[H|[]]]]]]]]; discriminate.
Qed.

End PublishedStateClaims.

Section LoopClaims.
Import Hook.

(** C4, on the code.  On a call of [processFrame] where the loop is
    active (the first guard passes) but the video frame is not decodable,
    the call returns at once: it leaves the state as it is, does no
    detection work, and does not request the next animation frame. *)
Theorem C4_not_decodable_tick_stalls (t : Tick) (s : State) :
  running t s = true ->
  frame_decodable t = false ->
  processFrame t s = (s, []) /\
  ~ In DetectEmotions (snd (processFrame t s)) /\
  forall h, ~ In (RequestAnimationFrame h) (snd (processFrame t s)).
Proof.
  intros Hrun Hdec.
  assert (Hidle : processFrame t s = (s, [])).
  { apply processFrame_idle. rewrite Hrun, Hdec. reflexivity. }
  rewrite Hidle. simpl. auto.
Qed.

Lemma C4_not_decodable_tick_stalls_witness :
  running (tick_at 1000 loadingVideo (Normal [tie_detection])) readyHook
    = true /\
  processFrame (tick_at 1000 loadingVideo (Normal [tie_detection]))
    readyHook = (readyHook, []).
Proof.
  split; [reflexivity|].
  apply (C4_not_decodable_tick_stalls
           (tick_at 1000 loadingVideo (Normal [tie_detection])) readyHook);
    reflexivity.
Defined.

Lemma detection_sampled (t : Tick) (s : State) :
  In DetectEmotions (snd (processFrame t s)) ->
  running t s && frame_decodable t = true /\ throttled t s = false.
Proof.
  destruct (processFrame_gates t s) as [Hidle | [[Hrun Hth] | H]].
  - rewrite (processFrame_idle t s Hidle). intros [].
  - rewrite (processFrame_throttled t s Hrun Hth). simpl.
    intros [H|[]]; discriminate.
  - intros _. exact H.
Qed.

(** C8. On a call of [processFrame] that invokes [detectEmotions] and
    gets [null] back, nothing is published: neither state setter is
    called, the bundle read by the presentation layer (emotion state,
    additional data, [isInitialized], [isProcessing]) is what it was, and
    the next animation frame is requested. *)
Theorem C8_not_found_keeps_published_state (t : Tick) (s : State)
    (detector : D.FaceApiEmotionDetector) :
  In DetectEmotions (snd (processFrame t s)) ->
  detectorRef s = Some detector ->
  snd (D.detectEmotions detector (capability t)) = Normal None ->
  published (isActive t) (fst (processFrame t s))
    = published (isActive t) s /\
  (forall e, ~ In (SetEmotionState e) (snd (processFrame t s))) /\
  (forall a, ~ In (SetAdditionalData a) (snd (processFrame t s))) /\
  In (RequestAnimationFrame (handle t)) (snd (processFrame t s)).
Proof.
  intros Hcall Hd Hres.
  destruct (detection_sampled t s Hcall) as [Hrun Hth].
  destruct (processFrame_sampled t s Hrun Hth) as (d & Hd' & Hpf).
  simpl in Hpf. rewrite Hd in Hd'. injection Hd' as <-.
  rewrite Hres in Hpf. rewrite Hpf. simpl.
  split; [reflexivity|].
  repeat split.
  - intros e [H|H]; [discriminate|].
    apply in_app_or in H. destruct H as [H|[H|[]]]; [|discriminate].
    revert H. apply not_in_console. discriminate.
  - intros a [H|H]; [discriminate|].
    apply in_app_or in H. destruct H as [H|[H|[]]]; [|discriminate].
    revert H. apply not_in_console. discriminate.
  - right. apply in_or_app. right. left. reflexivity.
Qed.

Lemma C8_not_found_keeps_published_state_witness :
  published true
    (fst (processFrame (tick_at 1000 liveVideo (Throw "boom")) readyHook))
    = published true readyHook /\
  In (RequestAnimationFrame 7)
     (snd (processFrame (tick_at 1000 liveVideo (Throw "boom")) readyHook)).
Proof.
  destruct (C8_not_found_keeps_published_state
              (tick_at 1000 liveVideo (Throw "boom")) readyHook
              readyDetector)
    as (Hsame & _ & _ & Hnext).
  - vm_compute. tauto.
  - reflexivity.
  - reflexivity.
  - split; [exact Hsame | exact Hnext].
Defined.

End LoopClaims.

(** ** Throttling *)
Section Throttle.
Import Hook.

Lemma periods_succ (n : nat) : periods (S n) == periods n + 333.
Proof.
  unfold periods. rewrite Nat2Z.inj_succ. unfold Z.succ.
  rewrite inject_Z_plus. ring.
Qed.

Lemma detections_app (a b : list effect) :
  detections (a ++ b) = (detections a + detections b)%nat.
Proof. unfold detections. rewrite filter_app. apply length_app. Qed.

Lemma detections_console (out : list console) :
  detections (map Console out) = 0%nat.
Proof. induction out as [|c out IH]; [reflexivity | exact IH]. Qed.

(** One call of [processFrame] either invokes no detection and leaves the
    time of the last attempt alone, or invokes exactly one, at least a
    throttle period after the last attempt, and records its own time. *)
Lemma tick_throttle (t : Tick) (s : State) :
  (detections (snd (processFrame t s)) = 0%nat /\
   lastProcessTimeRef (fst (processFrame t s)) = lastProcessTimeRef s) \/
  (detections (snd (processFrame t s)) = 1%nat /\
   lastProcessTimeRef (fst (processFrame t s)) = performance_now t /\
   333 <= performance_now t - lastProcessTimeRef s).
Proof.
  destruct (processFrame_gates t s) as [Hidle | [[Hrun Hth] | [Hrun Hth]]].
  - left. rewrite (processFrame_idle t s Hidle). split; reflexivity.
  - left. rewrite (processFrame_throttled t s Hrun Hth). split; reflexivity.
  - right.
    destruct (processFrame_sampled t s Hrun Hth) as (d & _ & Hpf).
    simpl in Hpf. rewrite Hpf. clear Hpf.
    assert (Helapsed : 333 <= performance_now t - lastProcessTimeRef s).
    { unfold throttled, Qltb in Hth. apply negb_false_iff in Hth.
      apply Qle_bool_iff in Hth. exact Hth. }
    destruct (snd (D.detectEmotions d (capability t))) as [[r|]|err];
      simpl; (split; [|split; [reflexivity | exact Helapsed]]);
      change (S ?n = 1%nat) with (S n = 1%nat);
      unfold detections; simpl; rewrite filter_app;
      rewrite length_app;
      fold (detections (map Console (fst (D.detectEmotions d (capability t)))));
      rewrite detections_console; reflexivity.
Qed.

(** After an attempt at time [last], every later attempt comes a throttle
    period after the previous one: if all ticks read the clock at or
    before [b] and fewer than [n + 1] periods fit between [last] and [b],
    at most [n] detections are invoked. *)
Lemma detections_after (ts : list Tick) :
  forall (s : State) (n : nat) (b : Q),
    Forall (fun t => performance_now t <= b) ts ->
    b - lastProcessTimeRef s < periods (S n) ->
    (detections (snd (ticks ts s)) <= n)%nat.
Proof.
  induction ts as [|t ts IH]; intros s n b Hts Hfit.
  - apply Nat.le_0_l.
  - inversion Hts as [|? ? Ht Hrest]; subst. simpl.
    destruct (processFrame t s) as [s1 done] eqn:Hpf.
    destruct (ticks ts s1) as [s2 more] eqn:Hmore. simpl.
    rewrite detections_app.
    pose proof (tick_throttle t s) as Hone. rewrite Hpf in Hone.
    simpl in Hone.
    destruct Hone as [[Hnone Hlast] | (Hdet & Hlast & Helapsed)].
    + rewrite Hnone. simpl.
      specialize (IH s1 n b Hrest). rewrite Hmore in IH. apply IH.
      rewrite Hlast. exact Hfit.
    + rewrite Hdet. rewrite periods_succ in Hfit.
      destruct n as [|m].
      * exfalso. assert (Hzero : periods 0 == 0) by reflexivity.
        rewrite Hzero in Hfit. lra.
      * specialize (IH s1 m b Hrest). rewrite Hmore in IH. simpl in IH.
        simpl. apply le_n_S. apply IH.
        rewrite Hlast. lra.
Qed.

(** In a window of 1000 ms at most four detections are invoked, whatever
    the state at its start. *)
Lemma detections_in_window (ts : list Tick) :
  forall (s : State) (a : Q),
    Forall (fun t => a <= performance_now t <= a + 1000) ts ->
    (detections (snd (ticks ts s)) <= 4)%nat.
Proof.
  induction ts as [|t ts IH]; intros s a Hts.
  - apply Nat.le_0_l.
  - inversion Hts as [|? ? Ht Hrest]; subst. simpl.
    destruct (processFrame t s) as [s1 done] eqn:Hpf.
    destruct (ticks ts s1) as [s2 more] eqn:Hmore. simpl.
    rewrite detections_app.
    pose proof (tick_throttle t s) as Hone. rewrite Hpf in Hone.
    simpl in Hone.
    destruct Hone as [[Hnone Hlast] | (Hdet & Hlast & Helapsed)].
    + rewrite Hnone. simpl.
      specialize (IH s1 a Hrest). rewrite Hmore in IH. exact IH.
    + rewrite Hdet. simpl. apply le_n_S.
      pose proof (detections_after ts s1 3 (a + 1000)) as Hafter.
      rewrite Hmore in Hafter. apply Hafter.
      * eapply Forall_impl; [|exact Hrest]. simpl. intros t' Ht'. tauto.
      * assert (Hfour : periods 4 == 1332) by reflexivity.
        rewrite Hlast, Hfour. simpl in Ht. lra.
Qed.

End Throttle.

Section ThrottleClaims.
Import Hook.

(** The run of the sample below: 63 ticks 16 ms apart invoke two
    detections, at 336 ms and at 672 ms. *)
Example detections_every_16ms :
  detections (snd (ticks ticks_every_16ms readyHook)) = 2%nat.
Proof. vm_compute. reflexivity. Qed.

Lemma ticks_every_16ms_window :
  Forall (fun t => 0 <= performance_now t <= 0 + 1000) ticks_every_16ms.
Proof.
  apply Forall_forall. intros t Ht. unfold ticks_every_16ms in Ht.
  apply in_map_iff in Ht. destruct Ht as (k & <- & Hk).
  apply in_seq in Hk. simpl performance_now.
  split.
  - change (inject_Z 0 <= inject_Z (16 * Z.of_nat k)).
    rewrite <- Zle_Qle. lia.
  - change (inject_Z (16 * Z.of_nat k) <= inject_Z 1000).
    rewrite <- Zle_Qle. lia.
Qed.

(** C5. While the loop is active with the frame decodable, a call of
    [processFrame] that finds less than 333 ms elapsed since the last
    attempt invokes no detection: all it does is request the next
    animation frame.  And over any run of calls whose clock readings lie
    within 1000 ms of one another, whatever the state at its start, the
    number of detections invoked is at most ceiling(1000/333) + 1. *)
Theorem C5_throttle :
  (forall (t : Tick) (s : State),
      running t s = true ->
      frame_decodable t = true ->
      performance_now t - lastProcessTimeRef s < 333 ->
      processFrame t s =
        (setAnimationFrameRef (handle t) s,
         [RequestAnimationFrame (handle t)])) /\
  (forall (ts : list Tick) (s : State) (a : Q),
      Forall (fun t => a <= performance_now t <= a + 1000) ts ->
      (detections (snd (ticks ts s))
       <= Z.to_nat (Qceiling (1000 / 333)) + 1)%nat).
Proof.
  split.
  - intros t s Hrun Hdec Hsoon.
    apply processFrame_throttled.
    + rewrite Hrun, Hdec. reflexivity.
    + unfold throttled, Qltb. apply negb_true_iff.
      apply not_true_iff_false. rewrite Qle_bool_iff. lra.
  - intros ts s a Hwindow.
    apply Nat.le_trans with (m := 4%nat).
    + exact (detections_in_window ts s a Hwindow).
    + vm_compute. lia.
Qed.

Lemma C5_throttle_witness :
  processFrame (tick_at 16 liveVideo (Normal [tie_detection])) readyHook =
    (setAnimationFrameRef 7 readyHook, [RequestAnimationFrame 7]) /\
  (detections (snd (ticks ticks_every_16ms readyHook)) <= 5)%nat.
Proof.
  split.
  - apply (proj1 C5_throttle
             (tick_at 16 liveVideo (Normal [tie_detection])) readyHook);
      [reflexivity | reflexivity | simpl; lra].
  - apply (proj2 C5_throttle ticks_every_16ms readyHook 0).
    exact ticks_every_16ms_window.
Defined.

End ThrottleClaims.

Section Initialization.
Import EmotionDetection.
Import Loading.

Lemma init_step_one_load e w : one_load w -> one_load (Hook.init_step e w).
Proof.
  destruct w as [s net]. unfold one_load. simpl. intros [Hnone Hle].
  destruct e as [|outcome]; simpl.
  - destruct (Hook.detectorRef s) eqn:Hd; simpl.
    + rewrite Hd. split; [discriminate | exact Hle].
    + rewrite (Hnone eq_refl). split; [discriminate | lia].
  - destruct (Hook.detectorRef s) as [d|] eqn:Hd; simpl;
      [|rewrite Hd; auto].
    destruct (suspended net) as [|waiting] eqn:Hw; simpl;
      [rewrite Hd; auto|].
    destruct outcome; simpl; (split; [discriminate | exact Hle]).
Qed.

Lemma init_run_one_load es :
  forall w, one_load w -> one_load (Hook.init_run es w).
Proof.
  induction es as [|e es IH]; intros w Hw; [exact Hw|].
  simpl. apply IH. apply init_step_one_load. exact Hw.
Qed.

(** C9, as the code has it.  Called when the detector is initialized,
    [initialize()] is a no-op success: it starts no load, logs nothing
    and leaves the detector as it is.  Called while [isInitialized] is
    still false -- which includes the time an earlier call is suspended
    on its loads -- it starts another batch of model loads: the class
    keeps no record of an attempt in flight.  The single load is the
    hook's doing: between mount and unmount, whatever the order of
    [initializeDetector()] calls and load completions, at most one batch
    of loads is started, because [initialize()] is called only when the
    ref holds no detector yet. *)
Theorem C9_initialize_guard :
  (forall s : FaceApiEmotionDetector * Loader,
      isInitialized (fst s) = true -> initialize_call s = ([], s)) /\
  (forall s : FaceApiEmotionDetector * Loader,
      isInitialized (fst s) = false ->
      started (snd (snd (initialize_call s))) = S (started (snd s))) /\
  (forall es : list event,
      (started (snd (Hook.init_run es (Hook.mount, idle))) <= 1)%nat).
Proof.
  split; [|split].
  - intros [this net]. simpl. intros ->. reflexivity.
  - intros [this net]. simpl. intros ->. reflexivity.
  - intros es. apply (init_run_one_load es (Hook.mount, idle)).
    split; [reflexivity | simpl; lia].
Qed.

Lemma C9_initialize_guard_witness :
  initialize_call (readyDetector, idle) = ([], (readyDetector, idle)) /\
  started (snd (snd (initialize_call (new, idle)))) = 1%nat /\
  (started
     (snd (Hook.init_run [call; call; settle (Normal tt); call]
             (Hook.mount, idle))) <= 1)%nat.
Proof.
  destruct C9_initialize_guard as (Hready & Hunready & Hhook).
  split; [|split].
  - apply (Hready (readyDetector, idle)). reflexivity.
  - apply (Hunready (new, idle)). reflexivity.
  - apply (Hhook [call; call; settle (Normal tt); call]).
Defined.

(** C9 as stated fails on the class: a second [initialize()] made while
    the first is suspended on its loads finds [isInitialized] still false
    and starts a second batch of loads. *)
Lemma C9_second_call_counterexample :
  let in_flight := run [call] (new, idle) in
  isInitialized (fst in_flight) = false /\
  suspended (snd in_flight) = 1%nat /\
  started (snd in_flight) = 1%nat /\
  started (snd (run [call; call] (new, idle))) = 2%nat /\
  suspended (snd (run [call; call] (new, idle))) = 2%nat.
Proof. repeat split. Qed.

End Initialization.

(** ** Further properties of the detector *)
Section DetectorExtras.
Import EmotionDetection.

Lemma dominant_entry this capability result :
  snd (detectEmotions this capability) = Normal (Some result) ->
  faceDetected result = true ->
  In (dominant result, confidence result) (Object_entries (emotions result)).
Proof.
  intros Hret Hface.
  destruct (dominant_first_maximum _ _ _ Hret Hface)
    as ((before & after & Hsplit & _) & _).
  rewrite Hsplit. apply in_or_app. right. left. reflexivity.
Qed.

Lemma result_numbers this capability result :
  snd (detectEmotions this capability) = Normal (Some result) ->
  Forall is_number (Object_entries (emotions result)).
Proof.
  intros Hret. destruct (faceDetected result) eqn:Hface.
  - destruct (face_result_inversion _ _ _ Hret Hface)
      as (d & ds & _ & Hconv & _).
    rewrite Hconv. apply convert_numbers.
  - rewrite (no_face_result_inversion _ _ _ Hret Hface).
    repeat constructor.
Qed.

(** X1. No score of a returned result is [NaN], and neither is its
    confidence, whatever the capability put into the expressions: a score
    that is missing, zero or [NaN] is replaced by 0. *)
Theorem X1_scores_are_numbers (this : FaceApiEmotionDetector)
    (capability : completion (list faceapi.Detection))
    (result : FaceApiDetectionResult) :
  snd (detectEmotions this capability) = Normal (Some result) ->
  Forall (fun e => is_NaN (snd e) = false) (Object_entries (emotions result))
  /\ is_NaN (confidence result) = false.
Proof.
  intros Hret. pose proof (result_numbers _ _ _ Hret) as Hnum.
  split; [exact Hnum|].
  destruct (faceDetected result) eqn:Hface.
  - rewrite Forall_forall in Hnum.
    apply (Hnum _ (dominant_entry _ _ _ Hret Hface)).
  - rewrite (no_face_result_inversion _ _ _ Hret Hface). reflexivity.
Qed.

Lemma X1_scores_are_numbers_witness :
  exists result,
    snd (detectEmotions readyDetector (Normal [blank_detection])) =
      Normal (Some result) /\
    happy (emotions result) = Finite 0 /\
    is_NaN (confidence result) = false.
Proof.
  eexists. split; [reflexivity|]. split; [reflexivity|].
  eapply (X1_scores_are_numbers readyDetector (Normal [blank_detection])).
  reflexivity.
Defined.

(** X2. Only the first detected face counts: the result for a frame with
    several faces is the result for its first face alone, both in what
    [detectEmotions] returns and in what a call of [processFrame] does. *)
Theorem X2_first_face_only (detection : faceapi.Detection)
    (others : list faceapi.Detection) :
  (forall this,
      detectEmotions this (Normal (detection :: others)) =
      detectEmotions this (Normal [detection])) /\
  (forall active v now date h s,
      Hook.processFrame
        {| Hook.isActive := active; Hook.video := v;
           Hook.performance_now := now; Hook.Date_now := date;
           Hook.handle := h;
           Hook.capability := Normal (detection :: others) |} s =
      Hook.processFrame
        {| Hook.isActive := active; Hook.video := v;
           Hook.performance_now := now; Hook.Date_now := date;
           Hook.handle := h;
           Hook.capability := Normal [detection] |} s).
Proof.
  assert (Hdet : forall this,
             detectEmotions this (Normal (detection :: others)) =
             detectEmotions this (Normal [detection])).
  { intros this. unfold detectEmotions.
    destruct (negb (isInitialized this) || negb (modelsLoaded this));
      reflexivity. }
  split; [exact Hdet|].
  intros active v now date h s. unfold Hook.processFrame. simpl.
  destruct v as [v|]; [|reflexivity].
  destruct (Hook.detectorRef s) as [d|]; [|reflexivity].
  rewrite (Hdet d). reflexivity.
Qed.

(** X3. With a face detected, the dominant emotion is ["neutral"] exactly
    when no score exceeds the neutral score; the confidence is then the
    neutral score.  In particular a face whose expression scores are all
    missing, zero or [NaN] gives neutral with confidence 0. *)
Theorem X3_neutral_unless_exceeded (this : FaceApiEmotionDetector)
    (capability : completion (list faceapi.Detection))
    (result : FaceApiDetectionResult) :
  snd (detectEmotions this capability) = Normal (Some result) ->
  faceDetected result = true ->
  (dominant result = "neutral" <->
   Forall (fun e => le (snd e) (neutral (emotions result)) = true)
     (Object_entries (emotions result))) /\
  (dominant result = "neutral" ->
   confidence result = neutral (emotions result)).
Proof.
  intros Hret Hface.
  destruct (dominant_first_maximum _ _ _ Hret Hface) as [Hfirst Hall].
  pose proof (dominant_entry _ _ _ Hret Hface) as Hin.
  assert (Hconf : dominant result = "neutral" ->
                  confidence result = neutral (emotions result)).
  { intros Hdom. rewrite Hdom in Hin. apply entry_cases in Hin.
    destruct Hin as [[_ Hv]|[[Hk _]|[[Hk _]|[[Hk _]|[[Hk _]|
                     [[Hk _]|[Hk _]]]]]]];
      [exact Hv | discriminate ..]. }
  split; [|exact Hconf]. split.
  - intros Hdom. rewrite <- (Hconf Hdom). exact Hall.
  - intros Hle.
    assert (Hneutral : first_maximum (Object_entries (emotions result))
                         ("neutral", neutral (emotions result))).
    { exists [], (tl (Object_entries (emotions result))).
      split; [reflexivity|]. split; [constructor|].
      inversion Hle; assumption. }
    pose proof (first_maximum_unique _ _ _ Hfirst Hneutral) as Heq.
    injection Heq as Hd _. exact Hd.
Qed.

Lemma X3_neutral_unless_exceeded_witness :
  exists result,
    snd (detectEmotions readyDetector (Normal [blank_detection])) =
      Normal (Some result) /\
    faceDetected result = true /\
    confidence result = Finite 0 /\
    dominant result = "neutral".
Proof.
  eexists. split; [reflexivity|]. split; [reflexivity|].
  split; [reflexivity|].
  apply (X3_neutral_unless_exceeded readyDetector
           (Normal [blank_detection]) _ eq_refl eq_refl).
  repeat constructor.
Defined.

Lemma or_default_unit (x : option number) :
  unit_score x -> in_unit (or_default x (Finite 0)).
Proof.
  destruct x as [[| |q|]|]; simpl; try contradiction.
  - intros Hq. destruct (negb (Qeq_bool q 0)); simpl; lra.
  - intros _. lra.
Qed.

(** X4. Scores stay within range: if every expression score the
    capability reports for the first face is missing or a finite number
    between 0 and 1, then every score of the result and its confidence are
    finite numbers between 0 and 1; the same holds of the no-face result. *)
Theorem X4_scores_within_unit (this : FaceApiEmotionDetector)
    (detections : list faceapi.Detection)
    (result : FaceApiDetectionResult) :
  snd (detectEmotions this (Normal detections)) = Normal (Some result) ->
  (forall detection others,
      detections = detection :: others ->
      unit_scores (faceapi.expressions detection)) ->
  Forall (fun e => in_unit (snd e)) (Object_entries (emotions result)) /\
  in_unit (confidence result).
Proof.
  intros Hret Hunit.
  assert (Hall : Forall (fun e => in_unit (snd e))
                   (Object_entries (emotions result))).
  { destruct (faceDetected result) eqn:Hface.
    - destruct (face_result_inversion _ _ _ Hret Hface)
        as (d & ds & Hcap & Hconv & _).
      injection Hcap as ->.
      destruct (Hunit d ds eq_refl) as (H1 & H2 & H3 & H4 & H5 & H6 & H7).
      rewrite Hconv. unfold Object_entries, convert; simpl.
      repeat constructor; apply or_default_unit; assumption.
    - rewrite (no_face_result_inversion _ _ _ Hret Hface).
      repeat constructor; simpl; lra. }
  split; [exact Hall|].
  destruct (faceDetected result) eqn:Hface.
  - rewrite Forall_forall in Hall.
    apply (Hall _ (dominant_entry _ _ _ Hret Hface)).
  - rewrite (no_face_result_inversion _ _ _ Hret Hface). simpl. lra.
Qed.

Lemma X4_scores_within_unit_witness :
  exists result,
    snd (detectEmotions readyDetector (Normal [tie_detection])) =
      Normal (Some result) /\
    in_unit (confidence result).
Proof.
  eexists. split; [reflexivity|].
  eapply (X4_scores_within_unit readyDetector [tie_detection]);
    [reflexivity|].
  intros d ds Heq. injection Heq as <- <-.
  unfold unit_scores, tie_detection; simpl. repeat split; lra.
Defined.

End DetectorExtras.

(** ** Further properties of the detector's lifecycle *)
Section LifecycleExtras.
Import EmotionDetection.
Import Loading.

(** X5. After [dispose()] the detector is back where it started:
    [detectEmotions] warns and returns [null] whatever the frame holds,
    disposing again changes nothing, and a later [initialize()] starts the
    model loads again, after which the detector is ready once more. *)
Theorem X5_dispose_resets (this : FaceApiEmotionDetector) :
  (forall capability,
      detectEmotions (dispose this) capability =
        ([console_warn "face-api.js not initialized"], Normal None)) /\
  dispose (dispose this) = dispose this /\
  (forall net,
      snd (initialize_call (dispose this, net)) =
        (dispose this,
         {| started := S (started net); suspended := S (suspended net) |}) /\
      ready (fst (snd (initialize_resume (Normal tt)
                         (snd (initialize_call (dispose this, net))))))
        = true).
Proof.
  split; [|split].
  - intros capability.
    destruct (detectEmotions_cases (dispose this) capability)
      as [[_ E] | [(Hr & _) | [(Hr & _) | (Hr & _)]]];
      [exact E | discriminate ..].
  - reflexivity.
  - intros net. split; reflexivity.
Qed.

(** X6. What a call of [initialize()] on a detector that is not
    initialized comes to.  If the loads succeed the promise resolves and
    the detector is ready.  If they fail the error is logged and the
    promise rejects with that same error, the detector is left exactly as
    it was, and a further [initialize()] starts the loads once more. *)
Theorem X6_initialize_outcome (this : FaceApiEmotionDetector)
    (net : Loader) :
  isInitialized this = false ->
  let pending := snd (initialize_call (this, net)) in
  (snd (fst (initialize_resume (Normal tt) pending)) = Normal tt /\
   ready (fst (snd (initialize_resume (Normal tt) pending))) = true) /\
  (forall error,
      fst (initialize_resume (Throw error) pending) =
        ([console_error "Failed to load face-api.js models:"], Throw error)
      /\ fst (snd (initialize_resume (Throw error) pending)) = this
      /\ started
           (snd (snd (initialize_call
                        (snd (initialize_resume (Throw error) pending)))))
         = S (S (started net))).
Proof.
  intros Hnot. simpl. rewrite Hnot. simpl. split; [split; reflexivity|].
  intros error. rewrite Hnot. repeat split.
Qed.

Lemma X6_initialize_outcome_witness :
  fst (initialize_resume (Throw "offline") (snd (initialize_call (new, idle))))
    = ([console_error "Failed to load face-api.js models:"], Throw "offline")
  /\ ready (fst (snd (initialize_resume (Normal tt)
                        (snd (initialize_call (new, idle)))))) = true.
Proof.
  destruct (X6_initialize_outcome new idle eq_refl) as [[_ Hok] Hfail].
  split; [apply (Hfail "offline") | exact Hok].
Defined.

Lemma init_step_settled (e : event) (w : Hook.State * Loader) :
  Hook.detectorRef (fst w) <> None ->
  suspended (snd w) = 0%nat ->
  Hook.init_step e w = w.
Proof.
  destruct w as [s net]. simpl. intros Hd Hs.
  destruct e as [|outcome]; simpl.
  - destruct (Hook.detectorRef s); [reflexivity | congruence].
  - destruct (Hook.detectorRef s); [|reflexivity].
    rewrite Hs. reflexivity.
Qed.

Lemma init_run_settled (es : list event) (w : Hook.State * Loader) :
  Hook.detectorRef (fst w) <> None ->
  suspended (snd w) = 0%nat ->
  Hook.init_run es w = w.
Proof.
  intros Hd Hs. induction es as [|e es IH]; [reflexivity|].
  simpl. rewrite (init_step_settled e w Hd Hs). exact IH.
Qed.

(** X7. The hook does not retry a failed load.  Once the first
    [initializeDetector()] has failed, no later [initializeDetector()] call
    or load completion changes anything: [isInitialized] stays false, no
    further load is started, and every call of [processFrame] returns at
    once without detecting or rescheduling. *)
Theorem X7_no_retry_after_failure (error : string) (es : list event) :
  let failed :=
    Hook.init_run [call; settle (Throw error)] (Hook.mount, idle) in
  Hook.init_run (call :: settle (Throw error) :: es) (Hook.mount, idle)
    = failed /\
  Hook.isInitialized (fst failed) = false /\
  started (snd failed) = 1%nat /\
  forall t, Hook.processFrame t (fst failed) = (fst failed, []).
Proof.
  simpl. split; [|split; [reflexivity|split; [reflexivity|]]].
  - apply init_run_settled; [discriminate | reflexivity].
  - intros t. unfold Hook.processFrame. simpl.
    destruct (Hook.video t); [|reflexivity].
    rewrite orb_true_r. reflexivity.
Qed.

End LifecycleExtras.

(** ** Further properties of the sampling loop *)
Section LoopExtras.
Import Hook.

Lemma processFrame_lifecycle (t : Tick) (s : State) :
  detectorRef (fst (processFrame t s)) = detectorRef s /\
  isInitialized (fst (processFrame t s)) = isInitialized s.
Proof.
  destruct (processFrame_gates t s) as [Hidle | [[Hrun Hth] | [Hrun Hth]]].
  - rewrite (processFrame_idle t s Hidle). split; reflexivity.
  - rewrite (processFrame_throttled t s Hrun Hth). split; reflexivity.
  - destruct (processFrame_sampled t s Hrun Hth) as (d & _ & Hpf).
    simpl in Hpf. rewrite Hpf.
    destruct (snd (D.detectEmotions d (capability t))) as [[r|]|err];
      split; reflexivity.
Qed.

(** X8. The sampling loop never touches the detector's lifecycle: after
    any run of calls of [processFrame], the detector held by the ref and
    the [isInitialized] flag are what they were before. *)
Theorem X8_ticks_keep_lifecycle (ts : list Tick) (s : State) :
  detectorRef (fst (ticks ts s)) = detectorRef s /\
  isInitialized (fst (ticks ts s)) = isInitialized s.
Proof.
  revert s. induction ts as [|t ts IH]; intros s; [split; reflexivity|].
  simpl. destruct (processFrame t s) as [s1 done] eqn:Hpf.
  destruct (ticks ts s1) as [s2 more] eqn:Hmore. simpl.
  pose proof (processFrame_lifecycle t s) as [Hd Hi].
  rewrite Hpf in Hd, Hi. simpl in Hd, Hi.
  specialize (IH s1). rewrite Hmore in IH. simpl in IH.
  destruct IH as [IHd IHi]. split; congruence.
Qed.

Lemma running_initialized (t : Tick) (s : State) :
  running t s && frame_decodable t = true ->
  isActive t = true /\ isInitialized s = true.
Proof.
  unfold running. intros H.
  apply andb_prop in H. destruct H as [H _].
  apply andb_prop in H. destruct H as [H Hi].
  apply andb_prop in H. destruct H as [H _].
  apply andb_prop in H. destruct H as [Ha _]. auto.
Qed.

(** X9. A call of [processFrame] requests the next animation frame exactly
    when the loop is running (active, video and detector present,
    initialized) and the frame is decodable -- whether the call is
    throttled or samples, and whatever the detection returns or throws --
    and it requests it at most once. *)
Theorem X9_reschedules_iff_running (t : Tick) (s : State) :
  (forall h,
      In (RequestAnimationFrame h) (snd (processFrame t s)) <->
      running t s && frame_decodable t = true /\ h = handle t) /\
  (List.length
     (filter (fun e => match e with
                       | RequestAnimationFrame _ => true
                       | _ => false
                       end)
        (snd (processFrame t s))) <= 1)%nat.
Proof.
  destruct (processFrame_gates t s) as [Hidle | [[Hrun Hth] | [Hrun Hth]]].
  - rewrite (processFrame_idle t s Hidle). simpl. split; [|lia].
    intros h. split; [intros [] | intros [H _]; congruence].
  - rewrite (processFrame_throttled t s Hrun Hth). simpl. split; [|lia].
    intros h. split.
    + intros [H|[]]. injection H as <-. auto.
    + intros [_ ->]. left. reflexivity.
  - destruct (processFrame_sampled t s Hrun Hth) as (d & _ & Hpf).
    simpl in Hpf. rewrite Hpf. clear Hpf.
    set (out := fst (D.detectEmotions d (capability t))).
    assert (Hcount : forall l : list console,
               filter (fun e => match e with
                                | RequestAnimationFrame _ => true
                                | _ => false
                                end) (map Console l) = []).
    { induction l as [|c l IH]; [reflexivity | exact IH]. }
    destruct (snd (D.detectEmotions d (capability t))) as [[r|]|err];
      simpl; rewrite filter_app, Hcount; simpl; (split; [|lia]);
      intros h; (split;
        [ intros [H|H]; [discriminate|];
          apply in_app_or in H; destruct H as [H|H];
          [ exfalso; revert H; apply not_in_console; discriminate
          | simpl in H;
            repeat (destruct H as [H|H]; [try discriminate|]);
            try contradiction; injection H as <-; auto ]
        | intros [_ ->]; right; apply in_or_app; right; simpl; tauto ]).
Qed.

Lemma detection_due (t : Tick) (s : State) :
  In DetectEmotions (snd (processFrame t s)) ->
  running t s && frame_decodable t = true /\
  333 <= performance_now t - lastProcessTimeRef s.
Proof.
  intros Hin. destruct (detection_sampled t s Hin) as [Hrun Hth].
  split; [exact Hrun|].
  unfold throttled, Qltb in Hth. apply negb_false_iff in Hth.
  apply Qle_bool_iff in Hth. exact Hth.
Qed.

(** X10. A call of [processFrame] invokes [detectEmotions] exactly when
    the loop is running, the frame is decodable and at least 333 ms have
    elapsed since the last attempt; it never invokes it twice. *)
Theorem X10_detects_iff_due (t : Tick) (s : State) :
  (In DetectEmotions (snd (processFrame t s)) <->
   running t s && frame_decodable t = true /\
   333 <= performance_now t - lastProcessTimeRef s) /\
  (detections (snd (processFrame t s)) <= 1)%nat.
Proof.
  split.
  - split.
    + apply detection_due.
    + intros [Hrun Hdue].
      assert (Hth : throttled t s = false).
      { unfold throttled, Qltb. apply negb_false_iff.
        apply Qle_bool_iff. exact Hdue. }
      destruct (processFrame_sampled t s Hrun Hth) as (d & _ & Hpf).
      simpl in Hpf. rewrite Hpf.
      destruct (snd (D.detectEmotions d (capability t))) as [[r|]|err];
        left; reflexivity.
  - destruct (tick_throttle t s) as [[H _] | [H _]]; rewrite H; lia.
Qed.

Lemma X10_detects_iff_due_witness :
  In DetectEmotions
     (snd (processFrame (tick_at 333 liveVideo (Normal [])) readyHook)).
Proof.
  apply (X10_detects_iff_due (tick_at 333 liveVideo (Normal [])) readyHook).
  split; [reflexivity | simpl; lra].
Defined.

(** X11. A failed attempt still uses up the throttle period: after a call
    that invoked [detectEmotions] -- even if it got [null] back or the
    call threw -- a call less than 333 ms later invokes no detection. *)
Theorem X11_failed_attempt_throttles (t1 t2 : Tick) (s : State) :
  In DetectEmotions (snd (processFrame t1 s)) ->
  performance_now t2 - performance_now t1 < 333 ->
  lastProcessTimeRef (fst (processFrame t1 s)) = performance_now t1 /\
  ~ In DetectEmotions (snd (processFrame t2 (fst (processFrame t1 s)))).
Proof.
  intros Hin Hsoon.
  assert (Hlast : lastProcessTimeRef (fst (processFrame t1 s))
                  = performance_now t1).
  { destruct (tick_throttle t1 s) as [[Hnone _] | (_ & Hlast & _)];
      [|exact Hlast].
    exfalso. unfold detections in Hnone.
    apply length_zero_iff_nil in Hnone.
    assert (Hf : In DetectEmotions
                   (filter is_detection (snd (processFrame t1 s))))
      by (apply filter_In; split; [exact Hin | reflexivity]).
    rewrite Hnone in Hf. exact Hf. }
  split; [exact Hlast|].
  intros Hagain.
  apply detection_due in Hagain.
  destruct Hagain as [_ Hdue]. rewrite Hlast in Hdue. lra.
Qed.

Lemma X11_failed_attempt_throttles_witness :
  ~ In DetectEmotions
      (snd (processFrame (tick_at 1016 liveVideo (Normal [tie_detection]))
              (fst (processFrame (tick_at 1000 liveVideo (Throw "boom"))
                      readyHook)))).
Proof.
  apply (X11_failed_attempt_throttles
           (tick_at 1000 liveVideo (Throw "boom"))
           (tick_at 1016 liveVideo (Normal [tie_detection])) readyHook).
  - vm_compute. tauto.
  - simpl. lra.
Defined.

End LoopExtras.

(** ** Further properties of what the loop publishes *)
Section PublishExtras.
Import Hook.

Lemma published_dominant_raw (t : Tick) (s : State)
    (e : Mediapipe.EmotionState) :
  In (SetEmotionState e) (snd (processFrame t s)) ->
  In (Mediapipe.dominant e) rawLabels /\
  Mediapipe.icon e = getEmotionIcon (Mediapipe.dominant e).
Proof.
  intros Hpub.
  destruct (published_origin t s e Hpub)
    as (d & r & _ & Hres & -> & _ & _ & _).
  split; [|reflexivity]. simpl Mediapipe.dominant.
  destruct (D.faceDetected r) eqn:Hface.
  - pose proof (dominant_entry d (capability t) r Hres Hface) as Hin.
    apply entry_cases in Hin.
    destruct Hin as [[Hk _]|[[Hk _]|[[Hk _]|[[Hk _]|[[Hk _]|
                     [[Hk _]|[Hk _]]]]]]];
      rewrite Hk; simpl; tauto.
  - rewrite (no_face_result_inversion d (capability t) r Hres Hface).
    simpl. tauto.
Qed.

Lemma lookup_key (m : list (string * string)) (k v : string) :
  lookup m k = Some v -> In k (map fst m).
Proof.
  induction m as [|[k' v'] m IH]; simpl; [discriminate|].
  destruct (String.eqb_spec k k') as [->|_]; [auto|].
  intros H. right. exact (IH H).
Qed.

(** X12. The icon table of the hook and the tone table of the panel are
    keyed on exactly the labels the detector produces (so ["disgusted"],
    not ["disgust"]).  Hence for every emotion state a call of
    [processFrame] publishes, the icon is the table's entry for the
    dominant label and so is the tone the panel shows: the fallbacks are
    never what decides them. *)
Theorem X12_icon_and_tone_from_tables :
  (forall k,
      In k rawLabels <-> lookup iconMap k <> None) /\
  (forall k,
      In k rawLabels <-> lookup Panel.toneMap k <> None) /\
  (forall t s e,
      In (SetEmotionState e) (snd (processFrame t s)) ->
      lookup iconMap (Mediapipe.dominant e) = Some (Mediapipe.icon e) /\
      lookup Panel.toneMap (Mediapipe.dominant e)
        = Some (Panel.getEmotionalTone (Mediapipe.dominant e))).
Proof.
  assert (Hkeys : forall m,
             (forall k, In k rawLabels -> lookup m k <> None) ->
             (forall k, In k (map fst m) -> In k rawLabels) ->
             forall k, In k rawLabels <-> lookup m k <> None).
  { intros m Hin Hout k. split; [apply Hin|].
    destruct (lookup m k) as [v|] eqn:Hl; [|congruence].
    intros _. apply Hout. eapply lookup_key. exact Hl. }
  assert (Hraw : forall (P : string -> Prop),
             P "neutral" -> P "happy" -> P "sad" -> P "angry" ->
             P "fearful" -> P "disgusted" -> P "surprised" ->
             forall k, In k rawLabels -> P k).
  { intros P H1 H2 H3 H4 H5 H6 H7 k Hk. simpl in Hk.
    destruct Hk as [<-|[<-|[<-|[<-|[<-|[<-|[<-|[]]]]]]]]; assumption. }
  split; [|split].
  - apply Hkeys.
    + apply Hraw; discriminate.
    + simpl. tauto.
  - apply Hkeys.
    + apply Hraw; discriminate.
    + simpl. tauto.
  - intros t s e Hpub.
    destruct (published_dominant_raw t s e Hpub) as [Hk ->].
    revert Hk. generalize (Mediapipe.dominant e).
    apply Hraw; split; reflexivity.
Qed.

Lemma X12_icon_and_tone_from_tables_witness :
  exists e,
    In (SetEmotionState e)
       (snd (processFrame
               (tick_at 1000 liveVideo (Normal [disgusted_detection]))
               readyHook)) /\
    Mediapipe.dominant e = "disgusted" /\
    lookup Panel.toneMap (Mediapipe.dominant e) = Some "Disapproving".
Proof.
  set (t := tick_at 1000 liveVideo (Normal [disgusted_detection])).
  assert (Hpub : In (SetEmotionState
                       (emotionState (fst (processFrame t readyHook))))
                    (snd (processFrame t readyHook)))
    by (vm_compute; tauto).
  eexists. split; [exact Hpub|]. split; [reflexivity|].
  apply (proj2 (proj2 X12_icon_and_tone_from_tables) t readyHook _ Hpub).
Defined.

(** X13. A due sample always publishes when the face-api.js call
    resolves: if the loop is running, the frame is decodable, at least
    333 ms have elapsed, and the detector in the ref is ready, then the
    call replaces the emotion state by the conversion of the result,
    stamped with the current date, and the additional data by the result's
    age, gender and face flag; the face flag tells whether the capability
    found any face. *)
Theorem X13_due_sample_publishes (t : Tick) (s : State)
    (d : D.FaceApiEmotionDetector) (faces : list faceapi.Detection) :
  running t s && frame_decodable t = true ->
  333 <= performance_now t - lastProcessTimeRef s ->
  detectorRef s = Some d ->
  ready d = true ->
  capability t = Normal faces ->
  exists r,
    snd (D.detectEmotions d (capability t)) = Normal (Some r) /\
    In (SetEmotionState (newEmotionState r (Date_now t)))
       (snd (processFrame t s)) /\
    emotionState (fst (processFrame t s)) = newEmotionState r (Date_now t) /\
    Mediapipe.timestamp (emotionState (fst (processFrame t s)))
      = Some (Date_now t) /\
    additionalData (fst (processFrame t s)) = newAdditionalData r /\
    D.faceDetected r = match faces with [] => false | _ :: _ => true end.
Proof.
  intros Hrun Hdue Hd Hready Hcap.
  assert (Hth : throttled t s = false).
  { unfold throttled, Qltb. apply negb_false_iff.
    apply Qle_bool_iff. exact Hdue. }
  destruct (processFrame_sampled t s Hrun Hth) as (d' & Hd' & Hpf).
  simpl in Hpf. rewrite Hd in Hd'. injection Hd' as <-.
  assert (Hres : exists r,
             snd (D.detectEmotions d (capability t)) = Normal (Some r) /\
             D.faceDetected r
               = match faces with [] => false | _ :: _ => true end).
  { destruct (detectEmotions_cases d (capability t))
      as [[Hnot _] | [(_ & [err He] & _) | [(_ & Hnil & E) |
          (_ & f & fs & r & Hcons & E & _ & _ & _ & _ & Hface)]]];
      try congruence.
    - exists D.noFaceResult. rewrite E. split; [reflexivity|].
      rewrite Hcap in Hnil. injection Hnil as ->. reflexivity.
    - exists r. rewrite E. split; [reflexivity|].
      rewrite Hcap in Hcons. injection Hcons as ->. exact Hface. }
  destruct Hres as (r & Hres & Hface). exists r.
  rewrite Hres in Hpf. rewrite Hpf. simpl.
  split; [exact Hres|]. split.
  - right. apply in_or_app. right. left. reflexivity.
  - repeat split. exact Hface.
Qed.

Lemma X13_due_sample_publishes_witness :
  exists r,
    emotionState
      (fst (processFrame (tick_at 1000 liveVideo (Normal [])) readyHook))
      = newEmotionState r 1700000000000 /\
    D.faceDetected r = false.
Proof.
  destruct (X13_due_sample_publishes
              (tick_at 1000 liveVideo (Normal [])) readyHook
              readyDetector [])
    as (r & _ & _ & Hstate & _ & _ & Hface);
    [reflexivity | simpl; lra | reflexivity | reflexivity | reflexivity |].
  exists r. split; [exact Hstate | exact Hface].
Defined.

End PublishExtras.

(** ** The hook between mount and unmount *)
Section MountedHook.
Import Hook.

Lemma init_step_ready (e : Loading.event) (w : State * Loading.Loader) :
  initialized_means_ready (fst w) ->
  initialized_means_ready (fst (init_step e w)).
Proof.
  destruct w as [s net]. unfold initialized_means_ready. simpl.
  intros [Hnone Hinit].
  destruct e as [|outcome]; simpl.
  - destruct (detectorRef s) as [d|] eqn:Hd; simpl; [rewrite Hd; auto|].
    split; [discriminate|].
    intros Hi. rewrite (Hnone eq_refl) in Hi. discriminate.
  - destruct (detectorRef s) as [d|] eqn:Hd; simpl;
      [|rewrite Hd; auto].
    destruct (Loading.suspended net) as [|waiting]; simpl;
      [rewrite Hd; auto|].
    destruct outcome as [[]|error]; simpl.
    + split; [discriminate|]. intros _. eexists. split; reflexivity.
    + split; discriminate.
Qed.

Lemma processFrame_ready (t : Tick) (s : State) :
  initialized_means_ready s ->
  initialized_means_ready (fst (processFrame t s)).
Proof.
  unfold initialized_means_ready.
  destruct (processFrame_lifecycle t s) as [-> ->]. auto.
Qed.

Lemma processFrame_no_warning (t : Tick) (s : State) :
  initialized_means_ready s ->
  ~ In (Console (console_warn "face-api.js not initialized"))
       (snd (processFrame t s)).
Proof.
  intros [_ Hinit].
  destruct (processFrame_gates t s) as [Hidle | [[Hrun Hth] | [Hrun Hth]]].
  - rewrite (processFrame_idle t s Hidle). intros [].
  - rewrite (processFrame_throttled t s Hrun Hth).
    intros [H|[]]. discriminate.
  - destruct (running_initialized t s Hrun) as [_ Hi].
    destruct (Hinit Hi) as (d & Hd & Hready).
    destruct (processFrame_sampled t s Hrun Hth) as (d' & Hd' & Hpf).
    simpl in Hpf. rewrite Hd in Hd'. injection Hd' as <-.
    rewrite Hpf. clear Hpf.
    destruct (detectEmotions_cases d (capability t))
      as [[Hnot _] | [(_ & _ & E) | [(_ & _ & E) |
          (_ & f & fs & r & _ & E & _)]]];
      [congruence | rewrite E; simpl ..];
      intros H; repeat (destruct H as [H|H]; [discriminate|]);
      exact H.
Qed.

(** X14. Between mount and unmount, whatever the order of
    [initializeDetector()] calls, load completions and calls of
    [processFrame]: whenever [isInitialized] is set, the ref holds a
    detector whose models are loaded; and so no call of [processFrame]
    ever draws the "not initialized" warning from [detectEmotions]. *)
Theorem X14_initialized_means_ready (evs : list hook_event) :
  initialized_means_ready
    (fst (fst (hook_run evs (mount, Loading.idle)))) /\
  ~ In (Console (console_warn "face-api.js not initialized"))
       (snd (hook_run evs (mount, Loading.idle))).
Proof.
  assert (Hgen : forall evs w,
             initialized_means_ready (fst w) ->
             initialized_means_ready (fst (fst (hook_run evs w))) /\
             ~ In (Console (console_warn "face-api.js not initialized"))
                  (snd (hook_run evs w))).
  { clear evs. induction evs as [|[e|t] evs IH]; intros w Hw.
    - simpl. auto.
    - simpl. apply IH. apply init_step_ready. exact Hw.
    - simpl. destruct (processFrame t (fst w)) as [s1 done] eqn:Hpf.
      pose proof (processFrame_ready t (fst w) Hw) as Hs1.
      pose proof (processFrame_no_warning t (fst w) Hw) as Hquiet.
      rewrite Hpf in Hs1, Hquiet. simpl in Hs1, Hquiet.
      destruct (IH (s1, snd w) Hs1) as [Hinv Hrest].
      destruct (hook_run evs (s1, snd w)) as [w2 more]. simpl in *.
      split; [exact Hinv|].
      intros Hin. apply in_app_or in Hin. tauto. }
  apply Hgen. split; [reflexivity | discriminate].
Qed.

End MountedHook.

(** ** The panel *)
Section PanelExtras.
Import Panel.

(** X15. The colour and the label the panel gives a confidence always go
    together, for every number including [NaN] and the infinities: green
    with "High Confidence", yellow with "Moderate Confidence", red with
    "Low Confidence".  For a finite confidence the bands are cut at the
    doubles 0.7 and 0.4: high from 0.7 on, moderate from 0.4 up to but not
    including 0.7, low below 0.4; [NaN] is low. *)
Theorem X15_confidence_bands :
  (forall c,
      (getConfidenceColor c = "text-green-600" /\
       getConfidenceLabel c = "High Confidence") \/
      (getConfidenceColor c = "text-yellow-600" /\
       getConfidenceLabel c = "Moderate Confidence") \/
      (getConfidenceColor c = "text-red-600" /\
       getConfidenceLabel c = "Low Confidence")) /\
  (forall q,
      (getConfidenceLabel (Finite q) = "High Confidence"
       <-> double_0_7 <= q) /\
      (getConfidenceLabel (Finite q) = "Moderate Confidence"
       <-> double_0_4 <= q < double_0_7) /\
      (getConfidenceLabel (Finite q) = "Low Confidence"
       <-> q < double_0_4)) /\
  getConfidenceLabel NaN = "Low Confidence".
Proof.
  split; [|split; [|reflexivity]].
  - intros c. unfold getConfidenceColor, getConfidenceLabel.
    destruct (ge c (Finite double_0_7)); [auto|].
    destruct (ge c (Finite double_0_4)); auto.
  - intros q. unfold getConfidenceLabel, ge. simpl.
    assert (Hcut : double_0_4 < double_0_7) by reflexivity.
    destruct (Qle_bool double_0_7 q) eqn:H7;
      [apply Qle_bool_iff in H7
      |apply not_true_iff_false in H7; rewrite Qle_bool_iff in H7];
      (destruct (Qle_bool double_0_4 q) eqn:H4;
       [apply Qle_bool_iff in H4
       |apply not_true_iff_false in H4; rewrite Qle_bool_iff in H4]);
      repeat split; intros; try discriminate; try reflexivity;
      try assumption; try lra.
Qed.

Lemma published_additional_origin (t : Hook.Tick) (s : Hook.State)
    (a : Hook.AdditionalData) :
  In (Hook.SetAdditionalData a) (snd (Hook.processFrame t s)) ->
  exists detector result,
    Hook.detectorRef s = Some detector /\
    snd (EmotionDetection.detectEmotions detector (Hook.capability t))
      = Normal (Some result) /\
    a = Hook.newAdditionalData result.
Proof.
  destruct (processFrame_gates t s) as [Hidle | [[Hrun Hth] | [Hrun Hth]]].
  - rewrite (processFrame_idle t s Hidle). intros [].
  - rewrite (processFrame_throttled t s Hrun Hth). simpl.
    intros [H|[]]; discriminate.
  - destruct (processFrame_sampled t s Hrun Hth) as (d & Hd & Hpf).
    simpl in Hpf. rewrite Hpf. clear Hpf.
    destruct (snd (EmotionDetection.detectEmotions d (Hook.capability t)))
      as [[r|]|err] eqn:Hres;
      simpl; intros [H|H]; try discriminate;
      apply in_app_or in H; destruct H as [H|H];
      try (exfalso; revert H; apply not_in_console; discriminate).
    + destruct H as [H|[H|[H|[H|[]]]]]; try discriminate.
      injection H as <-. exists d, r. auto.
    + destruct H as [H|[]]; discriminate.
    + destruct H as [H|[H|[]]]; discriminate.
Qed.

(** X16. For the additional data a call of [processFrame] publishes, the
    panel's age and gender block is rendered exactly when a face was
    detected, and then the gender row is always rendered (the gender is
    never empty); without a face neither the block nor a row is. *)
Theorem X16_additional_block_iff_face (t : Hook.Tick) (s : Hook.State)
    (a : Hook.AdditionalData) :
  In (Hook.SetAdditionalData a) (snd (Hook.processFrame t s)) ->
  additionalShown a = Hook.faceDetected a /\
  genderShown a = Hook.faceDetected a /\
  (Hook.faceDetected a = false -> ageShown a = false).
Proof.
  intros Hpub.
  destruct (published_additional_origin t s a Hpub)
    as (d & r & _ & Hres & ->).
  unfold genderShown, ageShown, additionalShown. simpl.
  destruct (EmotionDetection.faceDetected r) eqn:Hface.
  - destruct (face_result_inversion _ _ _ Hres Hface)
      as (f & fs & _ & _ & _ & _ & Hgen).
    rewrite Hgen.
    assert (Hg : truthy_string
                   (Some (EmotionDetection.gender_or_unknown
                            (faceapi.gender f))) = true).
    { destruct (faceapi.gender f) as [[|c g]|]; reflexivity. }
    rewrite Hg. rewrite orb_true_r. simpl.
    repeat split. discriminate.
  - simpl. repeat split.
Qed.

Lemma X16_additional_block_iff_face_witness :
  exists a,
    In (Hook.SetAdditionalData a)
       (snd (Hook.processFrame
               (tick_at 1000 liveVideo (Normal [blank_detection]))
               readyHook)) /\
    Hook.gender a = Some "unknown" /\
    genderShown a = true.
Proof.
  set (t := tick_at 1000 liveVideo (Normal [blank_detection])).
  assert (Hpub : In (Hook.SetAdditionalData
                       (Hook.additionalData
                          (fst (Hook.processFrame t readyHook))))
                    (snd (Hook.processFrame t readyHook)))
    by (vm_compute; tauto).
  eexists. split; [exact Hpub|]. split; [reflexivity|].
  destruct (X16_additional_block_iff_face t readyHook _ Hpub)
    as (_ & Hg & _).
  rewrite Hg. reflexivity.
Defined.

End PanelExtras.

(** ** The camera controls *)
Section CameraExtras.
Import Camera.

Lemma update_length {A} (n : nat) (f : A -> A) (l : list A) :
  List.length (update n f l) = List.length l.
Proof.
  revert n. induction l as [|x l IH]; intros [|n]; simpl; auto.
Qed.

Lemma nth_update_same {A} (n : nat) (f : A -> A) (l : list A) (d : A) :
  (n < List.length l)%nat -> nth n (update n f l) d = f (nth n l d).
Proof.
  revert n. induction l as [|x l IH]; intros [|n]; simpl; intros Hn;
    try lia; [reflexivity|].
  apply IH. lia.
Qed.

Lemma nth_update_other {A} (n m : nat) (f : A -> A) (l : list A) (d : A) :
  m <> n -> nth m (update n f l) d = nth m l d.
Proof.
  revert n m. induction l as [|x l IH]; intros [|n] [|m] Hne; simpl;
    try reflexivity; try congruence.
  apply IH. congruence.
Qed.

Lemma update_update {A} (n : nat) (f g : A -> A) (l : list A) :
  update n g (update n f l) = update n (fun x => g (f x)) l.
Proof.
  revert n. induction l as [|x l IH]; intros [|n]; simpl;
    try reflexivity. rewrite IH. reflexivity.
Qed.

Lemma update_id {A} (n : nat) (f : A -> A) (l : list A) (d : A) :
  f (nth n l d) = nth n l d -> update n f l = l.
Proof.
  revert n. induction l as [|x l IH]; intros [|n]; simpl; intros Hf;
    try reflexivity.
  - rewrite Hf. reflexivity.
  - rewrite (IH n Hf). reflexivity.
Qed.

(** X17. Clicking the camera button while the camera is enabled stops
    the camera: every track of the stream held in the [stream] cell is
    ended, with its kind and its enabled flag as they were, and no other
    stream is touched; the cell and the video element's [srcObject] are
    cleared, camera, microphone and ready flags are reset, so that the
    hook is no longer active; and no camera access is requested. *)
Theorem X17_stop_camera (c : State) (s : nat) :
  cameraEnabled c = true ->
  stream c = Some s ->
  (s < List.length (streams c))%nat ->
  let c' := fst (toggleCamera true c) in
  snd (toggleCamera true c) = false /\
  nth s (streams c') [] = map stop (nth s (streams c) []) /\
  Forall (fun t => live t = false) (nth s (streams c') []) /\
  (forall s', s' <> s -> nth s' (streams c') [] = nth s' (streams c) []) /\
  stream c' = None /\ srcObject c' = None /\
  cameraEnabled c' = false /\ micEnabled c' = false /\
  isVideoReady c' = false /\ hookActive c' = false.
Proof.
  intros Hon Hs Hlt. unfold toggleCamera. rewrite Hon. simpl.
  unfold stopCamera. rewrite Hs. simpl.
  assert (Hstopped : nth s (update s (map stop) (streams c)) []
                     = map stop (nth s (streams c) []))
    by (apply nth_update_same; exact Hlt).
  repeat split; try reflexivity.
  - exact Hstopped.
  - rewrite Hstopped. apply Forall_forall. intros t Ht.
    apply in_map_iff in Ht. destruct Ht as (t0 & <- & _). reflexivity.
  - intros s' Hne. apply nth_update_other. exact Hne.
Qed.

Lemma X17_stop_camera_witness :
  hookActive camera_on = true /\
  hookActive (fst (toggleCamera true camera_on)) = false /\
  Forall (fun t => live t = false)
    (nth 0 (streams (fst (toggleCamera true camera_on))) []).
Proof.
  split; [reflexivity|].
  destruct (X17_stop_camera camera_on 0 eq_refl eq_refl)
    as (_ & _ & Hended & _ & _ & _ & _ & _ & _ & Hoff);
    [cbv; lia | split; [exact Hoff | exact Hended]].
Defined.

Lemma step_consistent (e : event) (c : State) :
  fresh e -> consistent c -> consistent (step e c).
Proof.
  unfold consistent, held.
  intros Hfresh (Hcam & Hmic & Hstream & Haudio).
  assert (Hsame : cameraEnabled c = isSome (stream c) /\
                  (micEnabled c = true -> cameraEnabled c = true) /\
                  (forall s, stream c = Some s ->
                             (s < List.length (streams c))%nat /\
                             srcObject c = Some s) /\
                  Forall (fun t => kind t = audio_kind ->
                                   enabled t = micEnabled c)
                    match stream c with
                    | Some s => nth s (streams c) []
                    | None => []
                    end)
    by (repeat split; try assumption; apply Hstream; assumption).
  destruct e as [|tracks| | |]; simpl.
  - unfold toggleCamera. destruct (cameraEnabled c) eqn:Hon; simpl.
    + assert (Hnone : match stream c with
                      | Some _ => None
                      | None => stream c
                      end = None)
        by (destruct (stream c); reflexivity).
      rewrite Hnone.
      split; [reflexivity|]. split; [discriminate|].
      split; [discriminate | constructor].
    + rewrite Hon. exact Hsame.
  - split; [reflexivity|]. split; [reflexivity|]. split.
    + intros s Hs. injection Hs as <-. rewrite length_app. simpl.
      split; [lia | reflexivity].
    + rewrite app_nth2 by lia. rewrite Nat.sub_diag. simpl.
      eapply Forall_impl; [|exact Hfresh]. simpl. intros t [Ht _] _.
      exact Ht.
  - exact Hsame.
  - unfold loadeddata. destruct (onloadeddata c); exact Hsame.
  - unfold toggleMicrophone. destruct (stream c) as [s|] eqn:Hs; simpl.
    + destruct (Hstream s eq_refl) as [Hlt Hsrc].
      split; [exact Hcam|].
      split; [intros _; exact Hcam|].
      split.
      * intros s' Hs'. injection Hs' as <-. rewrite update_length.
        split; [exact Hlt | exact Hsrc].
      * rewrite nth_update_same by exact Hlt.
        apply Forall_forall. intros t Ht.
        apply in_map_iff in Ht. destruct Ht as (t0 & <- & _).
        unfold setAudioEnabled.
        destruct (kind t0) eqn:Hk; simpl; [reflexivity | congruence].
    + rewrite Hs. exact Hsame.
Qed.

Lemma run_consistent (es : list event) :
  Forall fresh es -> consistent (run es initial).
Proof.
  intros Hfresh.
  assert (Hgen : forall es c,
             Forall fresh es -> consistent c -> consistent (run es c)).
  { clear es Hfresh. induction es as [|e es IH]; intros c Hes Hc;
      [exact Hc|].
    inversion Hes; subst. simpl. apply IH; [assumption|].
    apply step_consistent; assumption. }
  apply Hgen; [exact Hfresh|].
  unfold consistent, held. simpl.
  repeat split; try discriminate. constructor.
Qed.

(** X18. Whatever the order of camera clicks, microphone clicks,
    [getUserMedia] results and [loadeddata] events on the mounted page
    (each finding the page rendered after the one before, and
    [getUserMedia] handing out live, enabled tracks): the camera is
    enabled exactly when a stream is held, and then that stream is the
    one attached to the video element; the microphone flag is set only
    while the camera is enabled; every audio track of the held stream has
    its enabled flag equal to the microphone flag; and the hook is active
    only while a stream is held. *)
Theorem X18_controls_consistent (es : list event) :
  Forall fresh es ->
  consistent (run es initial) /\
  (hookActive (run es initial) = true -> stream (run es initial) <> None).
Proof.
  intros Hfresh.
  pose proof (run_consistent es Hfresh) as Hc.
  split; [exact Hc|].
  destruct Hc as (Hcam & _). unfold hookActive. rewrite Hcam.
  destruct (stream (run es initial)); [discriminate|].
  simpl. discriminate.
Qed.

Lemma X18_controls_consistent_witness :
  consistent camera_on /\ hookActive camera_on = true.
Proof.
  split; [|reflexivity].
  apply (X18_controls_consistent camera_on_events).
  repeat constructor.
Defined.

Lemma setAudioEnabled_back (b : bool) (t : MediaStreamTrack) :
  (kind t = audio_kind -> enabled t = b) ->
  setAudioEnabled b (setAudioEnabled (negb b) t) = t.
Proof.
  destruct t as [[|] e l]; unfold setAudioEnabled; simpl; intros H;
    [rewrite (H eq_refl)|]; reflexivity.
Qed.

(** X19. Clicking the microphone button while a stream is held sets the
    enabled flag of each of its audio tracks to the new value of the
    microphone flag and leaves its video tracks, and whether any track is
    live, as they were; clicking twice brings the page back to exactly
    where it was.  Without a stream the click does nothing. *)
Theorem X19_microphone_toggle (c : State) :
  consistent c ->
  held (toggleMicrophone c)
    = map (setAudioEnabled (negb (micEnabled c))) (held c) /\
  map live (held (toggleMicrophone c)) = map live (held c) /\
  toggleMicrophone (toggleMicrophone c) = c /\
  (stream c = None -> toggleMicrophone c = c).
Proof.
  intros (Hcam & Hmic & Hstream & Haudio).
  unfold held in *.
  destruct (stream c) as [s|] eqn:Hs.
  - destruct (Hstream s eq_refl) as [Hlt _].
    assert (Hc' : toggleMicrophone c =
      {| cameraEnabled := cameraEnabled c;
         micEnabled := negb (micEnabled c);
         stream := Some s; isVideoReady := isVideoReady c;
         srcObject := srcObject c; onloadeddata := onloadeddata c;
         streams :=
           update s (map (setAudioEnabled (negb (micEnabled c))))
             (streams c) |})
      by (unfold toggleMicrophone; rewrite Hs; reflexivity).
    rewrite Hc'. simpl.
    rewrite nth_update_same by exact Hlt.
    split; [reflexivity|]. split.
    + rewrite map_map. apply map_ext. intros t.
      unfold setAudioEnabled. destruct (kind t); reflexivity.
    + split; [|discriminate].
      unfold toggleMicrophone. simpl.
      rewrite update_update. rewrite negb_involutive.
      rewrite (update_id s _ (streams c) []).
      * destruct c; simpl in *. subst. reflexivity.
      * rewrite map_map. rewrite <- (map_id (nth s (streams c) [])) at 2.
        apply map_ext_in. intros t Ht.
        apply setAudioEnabled_back.
        rewrite Forall_forall in Haudio. apply Haudio. exact Ht.
  - assert (Hc' : toggleMicrophone c = c)
      by (unfold toggleMicrophone; rewrite Hs; reflexivity).
    rewrite Hc', Hs. auto.
Qed.

Lemma X19_microphone_toggle_witness :
  micEnabled (toggleMicrophone camera_on) = false /\
  toggleMicrophone (toggleMicrophone camera_on) = camera_on.
Proof.
  split; [reflexivity|].
  apply (X19_microphone_toggle camera_on).
  apply (run_consistent camera_on_events). repeat constructor.
Defined.

End CameraExtras.

(** ** The throttle over windows of any length *)
Section ThrottleExtras.
Import Hook.

(** X20. Over any run of calls of [processFrame] whose clock readings
    all lie between [a] and [b], whatever the state at its start: if
    fewer than [n + 1] throttle periods of 333 ms fit into [b - a], at
    most [n + 1] detections are invoked. *)
Theorem X20_detections_per_window (ts : list Tick) (s : State) (a b : Q)
    (n : nat) :
  Forall (fun t => a <= performance_now t <= b) ts ->
  b - a < periods (S n) ->
  (detections (snd (ticks ts s)) <= S n)%nat.
Proof.
  revert s. induction ts as [|t ts IH]; intros s Hts Hfit.
  - apply Nat.le_0_l.
  - inversion Hts as [|? ? Ht Hrest]; subst. simpl.
    destruct (processFrame t s) as [s1 done] eqn:Hpf.
    destruct (ticks ts s1) as [s2 more] eqn:Hmore. simpl.
    rewrite detections_app.
    pose proof (tick_throttle t s) as Hone. rewrite Hpf in Hone.
    simpl in Hone.
    destruct Hone as [[Hnone Hlast] | (Hdet & Hlast & Helapsed)].
    + rewrite Hnone. simpl.
      specialize (IH s1 Hrest Hfit). rewrite Hmore in IH. exact IH.
    + rewrite Hdet. simpl. apply le_n_S.
      pose proof (detections_after ts s1 n b) as Hafter.
      rewrite Hmore in Hafter. apply Hafter.
      * eapply Forall_impl; [|exact Hrest]. simpl. intros t' Ht'. tauto.
      * rewrite Hlast. simpl in Ht. lra.
Qed.

Lemma X20_detections_per_window_witness :
  (detections (snd (ticks ticks_every_16ms readyHook)) <= 3)%nat.
Proof.
  apply (X20_detections_per_window ticks_every_16ms readyHook 0 992 2).
  - apply Forall_forall. intros t Ht. unfold ticks_every_16ms in Ht.
    apply in_map_iff in Ht. destruct Ht as (k & <- & Hk).
    apply in_seq in Hk. simpl performance_now. split.
    + change (inject_Z 0 <= inject_Z (16 * Z.of_nat k)).
      rewrite <- Zle_Qle. lia.
    + change (inject_Z (16 * Z.of_nat k) <= inject_Z 992).
      rewrite <- Zle_Qle. lia.
  - reflexivity.
Defined.

End ThrottleExtras.
